(** * Marqeta JIT-funding demo: setup orchestration and payment handlers

    A shallow embedding of [lib/marqeta.ts] and of the API routes that call
    it ([pages/api/marqeta/setup.ts], [nfc-pay.ts], [process-pin-payment.ts]
    and the QR / card-token payment routes), followed by the properties of
    the setup run, of the payment handlers and of token generation.

    The TypeScript is sequential [async]/[await] code over one process-wide
    object ([resources]) and one effect (HTTP calls to the platform), so it
    is embedded in a state-and-exception monad: the state carries the
    registry and the log of every HTTP exchange, an exception is the thrown
    JavaScript value. *)

From Stdlib Require Import List String Ascii ZArith NArith QArith Qround Lia Bool.
Import ListNotations.
Local Open Scope string_scope.
Local Close Scope Q_scope.
Set Warnings "-register-all".

(* ================================================================== *)
(** * JavaScript strings *)
(* ================================================================== *)

Module Str.

(** [s.length] *)
Definition len (s : string) : nat := String.length s.

(** [s.slice(start)], with a negative [start] counting from the end. *)
Definition slice (start : Z) (s : string) : string :=
  let n := Z.of_nat (len s) in
  let from := if (start <? 0)%Z then Z.max (n + start) 0 else Z.min start n in
  substring (Z.to_nat from) (len s) s.

(** [s.substring(a, b)]: the arguments are swapped when [a > b]. *)
Definition substring (a b : nat) (s : string) : string :=
  String.substring (Nat.min a b) (Nat.max a b - Nat.min a b) s.

Definition is_digit (c : ascii) : bool :=
  let n := N_of_ascii c in ((48 <=? n) && (n <=? 57))%N.

(** The class [\s] on ASCII text: TAB, LF, VT, FF, CR and space.  Strings
    are byte strings; card numbers, PINs and tokens are ASCII. *)
Definition is_space (c : ascii) : bool :=
  let n := N_of_ascii c in (((9 <=? n) && (n <=? 13)) || (n =? 32))%N.

Fixpoint all (p : ascii -> bool) (s : string) : bool :=
  match s with
  | EmptyString => true
  | String c s' => p c && all p s'
  end.

Fixpoint filter (p : ascii -> bool) (s : string) : string :=
  match s with
  | EmptyString => EmptyString
  | String c s' => if p c then String c (filter p s') else filter p s'
  end.

(** [s.replace(/\s/g, '')] *)
Definition strip_spaces (s : string) : string :=
  filter (fun c => negb (is_space c)) s.

(** [s.replace(c, '')] with a one-character string pattern: only the first
    occurrence is removed. *)
Fixpoint remove_first (c : ascii) (s : string) : string :=
  match s with
  | EmptyString => EmptyString
  | String d s' => if Ascii.eqb c d then s' else String d (remove_first c s')
  end.

(** [s.split(c)] for a one-character separator. *)
Fixpoint split_aux (c : ascii) (cur : string) (s : string) : list string :=
  match s with
  | EmptyString => [cur]
  | String d s' =>
      if Ascii.eqb c d then cur :: split_aux c EmptyString s'
      else split_aux c (cur ++ String d EmptyString) s'
  end.

Definition split (c : ascii) (s : string) : list string :=
  split_aux c EmptyString s.

(** Decimal digits of a natural number, most significant first.  The fuel
    is the bit length of [n], which bounds its number of decimal digits. *)
Definition digit_char (d : N) : ascii := ascii_of_N (48 + d).

Fixpoint decimal_fuel (fuel : nat) (n : N) (acc : string) : string :=
  match fuel with
  | O => acc
  | S f =>
      let acc' := String (digit_char (n mod 10)) acc in
      if (n <? 10)%N then acc' else decimal_fuel f (n / 10) acc'
  end.

Definition of_N (n : N) : string :=
  decimal_fuel (S (N.to_nat (N.log2 n))) n EmptyString.

Definition of_Z (z : Z) : string :=
  if (z <? 0)%Z then "-" ++ of_N (Z.to_N (- z)) else of_N (Z.to_N z).

(** The value a string of decimal digits denotes (used to check [of_N]). *)
Fixpoint to_N_aux (s : string) (acc : N) : N :=
  match s with
  | EmptyString => acc
  | String c s' => to_N_aux s' (10 * acc + (N_of_ascii c - 48))%N
  end.

Definition to_N (s : string) : N := to_N_aux s 0%N.

End Str.

(* ================================================================== *)
(** * Token generation ([generateToken], pure part) *)
(* ================================================================== *)

(** [generateToken(prefix)] reads the clock and the random generator; its
    result is this function of the two readings: [now] is [Date.now()] and
    [rnd] is the text of [Math.random().toString(36)]. *)
Definition token_format (prefix : string) (now : N) (rnd : string) : string :=
  let timestamp := Str.slice (-8) (Str.of_N now) in
  let random := Str.substring 2 6 rnd in
  prefix ++ "_" ++ timestamp ++ "_" ++ random.

(* ================================================================== *)
(** * JavaScript values *)
(* ================================================================== *)

(** Everything the TypeScript types as [any] (platform replies, thrown
    errors, JSON bodies) is a [value].  Numbers are exact rationals, which
    is what the amounts of the routes are (whole cents and their
    hundredths); an object is the list of its properties in insertion
    order, and the last binding of a key is the one in force (as in
    [JSON.parse] on a repeated key). *)
Inductive value : Type :=
| VUndef
| VNull
| VBool (b : bool)
| VNum (q : Q)
| VStr (s : string)
| VArr (l : list value)
| VObj (o : list (string * value)).

Definition props := list (string * value).

Definition num (z : Z) : value := VNum (inject_Z z).

(** ToBoolean *)
Definition truthy (v : value) : bool :=
  match v with
  | VUndef | VNull => false
  | VBool b => b
  | VNum q => negb (Qeq_bool q 0)
  | VStr s => negb (String.eqb s EmptyString)
  | VArr _ | VObj _ => true
  end.

(** [a || b] *)
Definition or_else (a b : value) : value := if truthy a then a else b.

Fixpoint lookup (k : string) (o : props) : option value :=
  match o with
  | [] => None
  | (k', v) :: o' =>
      match lookup k o' with
      | Some w => Some w
      | None => if String.eqb k k' then Some v else None
      end
  end.

(** [o[k] = v]: an existing property keeps its place, a new one goes last. *)
Definition set_prop (k : string) (v : value) (o : props) : props :=
  match lookup k o with
  | Some _ => map (fun kv => if String.eqb k (fst kv) then (fst kv, v) else kv) o
  | None => (o ++ [(k, v)])%list
  end.

Fixpoint indexed {A} (f : A -> value) (i : N) (l : list A) : props :=
  match l with
  | [] => []
  | a :: l' => (Str.of_N i, f a) :: indexed f (N.succ i) l'
  end.

(** Own enumerable properties, as the spread syntax [{...v}] copies them. *)
Definition own_props (v : value) : props :=
  match v with
  | VObj o => o
  | VArr l => indexed (fun x => x) 0 l
  | VStr s => indexed (fun c => VStr (String c EmptyString)) 0 (list_ascii_of_string s)
  | _ => []
  end.

(** [{...target, ...v}] *)
Definition spread (target : props) (v : value) : props :=
  fold_left (fun acc kv => set_prop (fst kv) (snd kv) acc) (own_props v) target.

(** [a === b] against a string, and against a number. *)
Definition strict_eq_string (v : value) (s : string) : bool :=
  match v with VStr s' => String.eqb s' s | _ => false end.

Definition strict_eq_num (v : value) (z : Z) : bool :=
  match v with VNum q => Qeq_bool q (inject_Z z) | _ => false end.

Definition of_option_string (o : option string) : value :=
  match o with Some s => VStr s | None => VUndef end.

Definition nullish (v : value) : bool :=
  match v with VUndef | VNull => true | _ => false end.

Definition nullish_name (v : value) : string :=
  match v with VUndef => "undefined" | _ => "null" end.

(** The property [k] of a value that is not [null] or [undefined]. *)
Definition prop (v : value) (k : string) : value :=
  match v with
  | VObj o => match lookup k o with Some w => w | None => VUndef end
  | _ => VUndef
  end.

(** An [Error] object: only its [message] is ever read. *)
Definition Error (message : string) : value := VObj [("message", VStr message)].

Definition TypeError_read (what : string) (k : string) : value :=
  Error ("Cannot read properties of " ++ what ++ " (reading '" ++ k ++ "')").

(** [Math.round]: the nearest integer, halves towards plus infinity. *)
Definition Math_round (q : Q) : Z := Qfloor (Qplus q (1 # 2)).

Definition cents_of (amount : Q) : Z := Math_round (Qmult amount (inject_Z 100)).

(* ================================================================== *)
(** * The world outside: platform, clock, random generator *)
(* ================================================================== *)

Record request := {
  rq_method : string;
  rq_url : string;
  rq_body : option value     (* the value handed to [JSON.stringify] *)
}.

Inductive parsed :=
| Json (v : value)
| Unparseable (message : string).

Inductive reply :=
| Rejected (message : string)
    (* [fetch] itself rejects: no HTTP answer *)
| Answered (status : Z) (statusText : string) (text : string) (body : parsed).

(** [response.ok] *)
Definition status_ok (status : Z) : bool := ((200 <=? status) && (status <=? 299))%Z.

(** Every reading of the outside world happens at an instant, a counter the
    state advances; the environment answers per instant. *)
Record env := {
  fetch : nat -> request -> reply;
  Date_now : nat -> N;              (* [Date.now()] *)
  Math_random36 : nat -> string;    (* [Math.random().toString(36)] *)
  toTimeString : nat -> string;     (* [new Date().toTimeString()] *)
  toISOString : nat -> string;      (* [new Date().toISOString()] *)
  number_text : Q -> string;
    (* the text of a number that is not an integer below 10^21 *)
  MARQETA_API_URL : option string   (* [process.env.MARQETA_API_URL] *)
}.

(** [n.toString()] *)
Definition number_toString (E : env) (q : Q) : string :=
  let r := Qred q in
  if (Pos.eqb (Qden r) 1 && (Z.abs (Qnum r) <? 10 ^ 21)%Z)%bool
  then Str.of_Z (Qnum r)
  else number_text E q.

(** ToString, as a template literal applies it. *)
Fixpoint to_string (E : env) (v : value) : string :=
  match v with
  | VUndef => "undefined"
  | VNull => "null"
  | VBool true => "true"
  | VBool false => "false"
  | VNum q => number_toString E q
  | VStr s => s
  | VArr l =>
      let elem x := match x with VUndef | VNull => EmptyString | _ => to_string E x end in
      String.concat "," (map elem l)
  | VObj _ => "[object Object]"
  end.

(* ================================================================== *)
(** * Process state and the monad of the handlers *)
(* ================================================================== *)

(** The module-level [resources] object of [lib/marqeta.ts]: five slots,
    each initially [null]. *)
Record registry := {
  fundingSource : value;
  cardProduct : value;
  user : value;
  card : value;
  velocityControl : value
}.

Definition empty_registry : registry :=
  {| fundingSource := VNull; cardProduct := VNull; user := VNull;
     card := VNull; velocityControl := VNull |}.

Record state := {
  resources : registry;
  exchanges : list (request * reply);   (* every HTTP call made so far *)
  instant : nat
}.

Definition initial_state : state :=
  {| resources := empty_registry; exchanges := []; instant := 0 |}.

Inductive outcome (A : Type) :=
| Ok (a : A)
| Thrown (e : value).
Arguments Ok {A} a.
Arguments Thrown {A} e.

Definition M (A : Type) : Type := env -> state -> outcome A * state.

Definition ret {A} (a : A) : M A := fun _ s => (Ok a, s).

Definition throw {A} (e : value) : M A := fun _ s => (Thrown e, s).

Definition bind {A B} (m : M A) (k : A -> M B) : M B :=
  fun E s =>
    match m E s with
    | (Ok a, s') => k a E s'
    | (Thrown e, s') => (Thrown e, s')
    end.

(** [try { m } catch (error) { h error }] *)
Definition try_catch {A} (m : M A) (h : value -> M A) : M A :=
  fun E s =>
    match m E s with
    | (Ok a, s') => (Ok a, s')
    | (Thrown e, s') => h e E s'
    end.

Declare Scope js_scope.
Delimit Scope js_scope with js.
Notation "x <- m ;; k" := (bind m (fun x => k))
  (at level 100, m at next level, right associativity) : js_scope.
Notation "m ;;; k" := (bind m (fun _ => k))
  (at level 100, right associativity) : js_scope.
Local Open Scope js_scope.

Definition ask : M env := fun E s => (Ok E, s).

(** One reading of the outside world: the current instant, then advance. *)
Definition tick : M nat :=
  fun _ s =>
    (Ok (instant s),
     {| resources := resources s; exchanges := exchanges s; instant := S (instant s) |}).

Definition read {A} (f : env -> nat -> A) : M A :=
  E <- ask ;; n <- tick ;; ret (f E n).

(** [await fetch(url, options)]: the exchange is appended to the log. *)
Definition http (rq : request) : M reply :=
  fun E s =>
    let rp := fetch E (instant s) rq in
    (Ok rp,
     {| resources := resources s;
        exchanges := (exchanges s ++ [(rq, rp)])%list;
        instant := S (instant s) |}).

Definition update_resources (f : registry -> registry) : M unit :=
  fun _ s =>
    (Ok tt,
     {| resources := f (resources s); exchanges := exchanges s; instant := instant s |}).

(** [getResources()] *)
Definition getResources : M registry := fun _ s => (Ok (resources s), s).

(** [v.k]: reading a property of [null] or [undefined] throws.  None of
    the names the program reads is [length] or an index, so strings and
    arrays answer [undefined]. *)
Definition getp (v : value) (k : string) : M value :=
  if nullish v then throw (TypeError_read (nullish_name v) k)
  else ret (prop v k).

(** [v?.k] *)
Definition getp_opt (v : value) (k : string) : M value :=
  if nullish v then ret VUndef else getp v k.

(* ================================================================== *)
(** * lib/marqeta.ts *)
(* ================================================================== *)

Definition MARQETA_API_BASE : string := "sandbox-api.marqeta.com".

(** Hard-coded user balance limit (in cents = $100.00) *)
Definition USER_BALANCE_LIMIT : Z := 10000.

Record MarqetaResponse := { status : Z; data : value }.

(** [marqetaRequest(method, path, data)].  The headers are the same on
    every call and are not recorded; the two [console] lines are
    observability only. *)
Definition marqetaRequest (method path : string) (payload : value) : M MarqetaResponse :=
  let url := "https://" ++ MARQETA_API_BASE ++ "/v3" ++ path in
  let options :=
    {| rq_method := method; rq_url := url;
       rq_body := if truthy payload then Some payload else None |} in
  response <- http options ;;
  match response with
  | Rejected message => throw (Error message)
  | Answered st statusText _ body =>
      if negb (status_ok st) then
        let error :=
          match body with
          | Json v => v
          | Unparseable _ => VObj [("message", VStr statusText)]
          end in
        throw (VObj [("status", num st); ("error", error)])
      else
        let responseData :=
          match body with
          | Json v => v
          | Unparseable _ => VObj []
          end in
        ret {| status := st; data := responseData |}
  end.

(** [testConnection()] *)
Definition testConnection : M bool :=
  try_catch
    (_ <- marqetaRequest "GET" "/cardproducts?count=1" VNull ;; ret true)
    (fun _ => ret false).

(** [generateToken(prefix)] *)
Definition generateToken (prefix : string) : M string :=
  now <- read Date_now ;;
  rnd <- read Math_random36 ;;
  ret (token_format prefix now rnd).

(** [new Date().toTimeString().split(' ')[0].substring(0, 5)] *)
Definition clock_hhmm : M string :=
  t <- read toTimeString ;;
  ret (Str.substring 0 5 (hd EmptyString (Str.split " " t))).

(** [....replace(':', '')] on top of it *)
Definition clock_hhmm_compact : M string :=
  t <- clock_hhmm ;; ret (Str.remove_first ":" t).

Definition set_fundingSource (v : value) (r : registry) : registry :=
  {| fundingSource := v; cardProduct := cardProduct r; user := user r;
     card := card r; velocityControl := velocityControl r |}.

Definition set_cardProduct (v : value) (r : registry) : registry :=
  {| fundingSource := fundingSource r; cardProduct := v; user := user r;
     card := card r; velocityControl := velocityControl r |}.

Definition set_user (v : value) (r : registry) : registry :=
  {| fundingSource := fundingSource r; cardProduct := cardProduct r; user := v;
     card := card r; velocityControl := velocityControl r |}.

Definition set_card (v : value) (r : registry) : registry :=
  {| fundingSource := fundingSource r; cardProduct := cardProduct r; user := user r;
     card := v; velocityControl := velocityControl r |}.

Definition set_velocityControl (v : value) (r : registry) : registry :=
  {| fundingSource := fundingSource r; cardProduct := cardProduct r; user := user r;
     card := card r; velocityControl := v |}.

Definition defaultFundingSource : value :=
  VObj [("token", VStr "sandbox_program_funding");
        ("name", VStr "Default Sandbox Program Funding")].

(** [createProgramFundingSource()]: the whole body is inside [try], so any
    failure of the call ends in the sandbox default. *)
Definition createProgramFundingSource : M value :=
  try_catch
    (token <- generateToken "fund" ;;
     time <- clock_hhmm_compact ;;
     let fundingSourceData :=
       VObj [("token", VStr token);
             ("name", VStr ("🚀 JIT-OneClick-" ++ time))] in
     response <- marqetaRequest "POST" "/fundingsources/program" fundingSourceData ;;
     update_resources (set_fundingSource (data response)) ;;;
     ret (data response))
    (fun _ =>
       update_resources (set_fundingSource defaultFundingSource) ;;;
       ret defaultFundingSource).

(** [createCardProduct(fundingSourceToken)] *)
Definition createCardProduct (fundingSourceToken : value) : M value :=
  token <- generateToken "prod" ;;
  time <- clock_hhmm_compact ;;
  let cardProductData :=
    VObj [("token", VStr token);
          ("name", VStr ("⚡ OneClick-Card-" ++ time));
          ("start_date", VStr "2025-01-01");
          ("config", VObj [
             ("fulfillment", VObj [("payment_instrument", VStr "VIRTUAL_PAN")]);
             ("poi", VObj [("ecommerce", VBool true); ("atm", VBool false)]);
             ("card_life_cycle", VObj [("activate_upon_issue", VBool true)]);
             ("jit_funding", VObj [
                ("program_funding_source", VObj [
                   ("funding_source_token", fundingSourceToken);
                   ("refunds_destination", VStr "PROGRAM_FUNDING_SOURCE");
                   ("enabled", VBool true)])])])] in
  response <- marqetaRequest "POST" "/cardproducts" cardProductData ;;
  update_resources (set_cardProduct (data response)) ;;;
  ret (data response).

(** [createUser(userData)] *)
Definition createUser (userData : value) : M value :=
  token <- generateToken "user" ;;
  iso <- read toISOString ;;
  let timestamp := hd EmptyString (Str.split "T" iso) in
  time <- clock_hhmm ;;
  E <- ask ;;
  let suffix := of_option_string (nth_error (Str.split "_" token) 2) in
  let payload :=
    VObj (spread
      [("token", VStr token);
       ("first_name", VStr "OneClick");
       ("last_name", VStr ("User-" ++ time));
       ("email", VStr ("oneclick-" ++ to_string E suffix ++ "@test.marqeta"));
       ("metadata", VObj [
          ("balance_limit", num USER_BALANCE_LIMIT);
          ("notes", VStr ("Created for One-Click Pay testing - "
                          ++ timestamp ++ " " ++ time))])]
      userData) in
  response <- marqetaRequest "POST" "/users" payload ;;
  update_resources (set_user (data response)) ;;;
  ret (data response).

(** [createCard(userToken, cardProductToken)] *)
Definition createCard (userToken cardProductToken : value) : M value :=
  token <- generateToken "card" ;;
  time <- clock_hhmm_compact ;;
  let cardData :=
    VObj [("token", VStr token);
          ("user_token", userToken);
          ("card_product_token", cardProductToken);
          ("metadata", VObj [
             ("notes", VStr ("Virtual card for One-Click Pay - " ++ time))])] in
  response <- marqetaRequest "POST" "/cards?show_pan=true&show_cvv_number=true" cardData ;;
  update_resources (set_card (data response)) ;;;
  ret (data response).

(** [createVelocityControl(userToken, name = 'Daily Spend Limit')] *)
Definition createVelocityControl (userToken : value) (name : string) : M value :=
  let velocityControlData :=
    VObj [("name", VStr name);
          ("association", VObj [("user_token", userToken)]);
          ("amount_limit", num USER_BALANCE_LIMIT);
          ("currency_code", VStr "USD");
          ("velocity_window", VStr "DAY");
          ("active", VBool true)] in
  response <- marqetaRequest "POST" "/velocitycontrols" velocityControlData ;;
  update_resources (set_velocityControl (data response)) ;;;
  ret (data response).

(** [simulateTransaction(cardToken, amount, webhookEndpoint?)]: the amount
    goes out as the text of the number it is given. *)
Definition simulateTransaction
    (cardToken : value) (amount : Q) (webhookEndpoint : option string) : M value :=
  E <- ask ;;
  let transactionData :=
    VObj [("amount", VStr (number_toString E amount));
          ("card_token", cardToken);
          ("card_acceptor", VObj [
             ("mid", VStr "1234567890");
             ("name", VStr "Test Merchant");
             ("street_address", VStr "123 Main St");
             ("city", VStr "San Francisco");
             ("state", VStr "CA");
             ("zip", VStr "94105");
             ("country_code", VStr "USA")]);
          ("network", VStr "VISA");
          ("webhook",
             if truthy (of_option_string webhookEndpoint) then
               VObj [("endpoint", of_option_string webhookEndpoint);
                     ("username", VStr "webhook_user");
                     ("password", VStr "webhook_password")]
             else VUndef)] in
  response <- marqetaRequest "POST" "/simulations/cardtransactions/authorization"
                transactionData ;;
  ret (data response).

(** [clearTransaction(transactionToken, amount)]: cents in, dollars out. *)
Definition clearTransaction (transactionToken : value) (amount : Q) : M value :=
  let clearingData :=
    VObj [("preceding_related_transaction_token", transactionToken);
          ("amount", VNum (Qred (Qdiv amount (inject_Z 100))))] in
  response <- marqetaRequest "POST"
                "/simulations/cardtransactions/authorization.clearing" clearingData ;;
  ret (data response).

(** [getUserBalance(userToken)] *)
Definition getUserBalance (userToken : string) : M value :=
  response <- marqetaRequest "GET" ("/users/" ++ userToken) VNull ;;
  ret (data response).

(** The two shapes [setupJITFunding] returns: [{..., success: true}] and
    [{success: false, error}]. *)
Inductive SetupResult :=
| Success (fundingSource cardProduct user card velocityControl : value)
| Failure (error : value).

Definition connect_failure : string :=
  "Failed to connect to Marqeta API. Please check your credentials.".

(** The [try] block of [setupJITFunding].  Each [console.log] of a token is
    kept as the property read it performs, since that read throws on a
    [null] reply. *)
Definition setup_steps : M SetupResult :=
  connected <- testConnection ;;
  (if negb connected then throw (Error connect_failure) else ret tt) ;;;
  fundingSource <- createProgramFundingSource ;;
  _ <- getp fundingSource "token" ;;
  fsToken <- getp fundingSource "token" ;;
  cardProduct <- createCardProduct fsToken ;;
  _ <- getp cardProduct "token" ;;
  user <- createUser VUndef ;;
  _ <- getp user "token" ;;
  userToken <- getp user "token" ;;
  cpToken <- getp cardProduct "token" ;;
  card <- createCard userToken cpToken ;;
  _ <- getp card "token" ;;
  userToken' <- getp user "token" ;;
  velocityControl <- createVelocityControl userToken' "Daily Spend Limit" ;;
  _ <- getp velocityControl "token" ;;
  ret (Success fundingSource cardProduct user card velocityControl).

(** Its [catch] block: [{ success: false, error: error.error || error.message }] *)
Definition setup_failure (error : value) : M SetupResult :=
  e <- getp error "error" ;;
  reason <- (if truthy e then ret e else getp error "message") ;;
  ret (Failure reason).

(** [setupJITFunding()] *)
Definition setupJITFunding : M SetupResult := try_catch setup_steps setup_failure.

(* ================================================================== *)
(** * API routes *)
(* ================================================================== *)

(** [req.body], read at the types the routes document: strings for tokens,
    PAN and PIN, a number for [amount], a boolean for [autoClear]; an
    absent field is [None]. *)
Record Body := {
  action : option string;
  amount : option Q;
  webhookEndpoint : option string;
  cardToken : option string;
  userToken : option string;
  transactionToken : option string;
  pan : option string;
  pin : option string;
  autoClear : option bool
}.

Record ApiRequest := { method : string; body : Body }.

(** [res.status(code).json(payload)] *)
Record response := { code : value; payload : value }.

Definition respond (c : Z) (p : props) : M response :=
  ret {| code := num c; payload := VObj p |}.

(** [!s] on an optional string, [!n] and [n <= 0] on an optional number *)
Definition missing (s : option string) : bool :=
  match s with Some s' => String.eqb s' EmptyString | None => true end.

Definition no_amount (a : option Q) : bool :=
  match a with Some q => Qeq_bool q 0 | None => true end.

Definition invalid_amount (a : option Q) : bool :=
  match a with Some q => Qeq_bool q 0 || Qle_bool q 0 | None => true end.

Definition get_string (s : option string) : string :=
  match s with Some s' => s' | None => EmptyString end.

Definition get_amount (a : option Q) : Q :=
  match a with Some q => q | None => 0%Q end.

Definition is_action (a : option string) (name : string) : bool :=
  match a with Some s => String.eqb s name | None => false end.

Definition error_only (msg : string) : props := [("error", VStr msg)].

(** *** pages/api/marqeta/setup.ts *)

(** The [catch] block of the dispatcher: message extraction and hints. *)
Definition setup_error_response (error : value) : M response :=
  E <- ask ;;
  e <- getp error "error" ;;
  md <- (if truthy e then
           match e with
           | VStr _ => ret (e, VNull)
           | _ =>
               em <- getp e "error_message" ;;
               if truthy em then ret (em, e)
               else
                 m <- getp e "message" ;;
                 if truthy m then ret (m, VNull)
                 else ret (VStr "Internal server error", VNull)
           end
         else
           m <- getp error "message" ;;
           if truthy m then ret (m, VNull)
           else ret (VStr "Internal server error", VNull)) ;;
  let errorMessage := fst md in
  let errorDetails := snd md in
  st <- getp error "status" ;;
  let errorMessage :=
    if strict_eq_num st 404 then
      VStr ("Resource not found: " ++ to_string E errorMessage
            ++ ". This might be due to invalid API credentials or endpoint.")
    else if strict_eq_num st 401 then
      VStr ("Authentication failed: " ++ to_string E errorMessage
            ++ ". Please check your Marqeta API credentials.")
    else if strict_eq_num st 403 then
      VStr ("Authorization failed: " ++ to_string E errorMessage
            ++ ". You don't have permission to perform this action.")
    else if strict_eq_num st 409 then
      VStr ("Conflict: " ++ to_string E errorMessage
            ++ ". A resource with this token may already exist.")
    else errorMessage in
  ret {| code := or_else st (num 500);
         payload := VObj [("success", VBool false);
                          ("error", errorMessage);
                          ("details", errorDetails)] |}.

Definition setup_handler (req : ApiRequest) : M response :=
  if negb (String.eqb (method req) "POST") then
    respond 405 (error_only "Method not allowed")
  else
  try_catch
    (let b := body req in
     if is_action (action b) "setup" then
       result <- setupJITFunding ;;
       match result with
       | Success fundingSource cardProduct user card velocityControl =>
           E <- ask ;;
           fs_token <- getp fundingSource "token" ;;
           fs_name <- getp fundingSource "name" ;;
           cp_token <- getp cardProduct "token" ;;
           cp_name <- getp cardProduct "name" ;;
           u_token <- getp user "token" ;;
           first_name <- getp user "first_name" ;;
           last_name <- getp user "last_name" ;;
           c_token <- getp card "token" ;;
           c_pan <- getp card "pan" ;;
           c_cvv <- getp card "cvv_number" ;;
           c_expiration <- getp card "expiration" ;;
           c_state <- getp card "state" ;;
           vc_token <- getp velocityControl "token" ;;
           vc_window <- getp velocityControl "velocity_window" ;;
           respond 200
             [("success", VBool true);
              ("data", VObj [
                 ("fundingSource", VObj [("token", fs_token); ("name", fs_name)]);
                 ("cardProduct", VObj [("token", cp_token); ("name", cp_name)]);
                 ("user", VObj [
                    ("token", u_token);
                    ("name", VStr (to_string E first_name ++ " " ++ to_string E last_name));
                    ("balanceLimit", num USER_BALANCE_LIMIT)]);
                 ("card", VObj [
                    ("token", c_token); ("pan", c_pan); ("cvv", c_cvv);
                    ("expiration", c_expiration); ("state", c_state)]);
                 ("velocityControl", VObj [
                    ("token", vc_token);
                    ("amountLimit", num USER_BALANCE_LIMIT);
                    ("window", vc_window)])]);
              ("message", VStr "JIT Funding setup completed successfully")]
       | Failure error =>
           respond 500 [("success", VBool false); ("error", error)]
       end
     else if is_action (action b) "simulate" then
       if missing (cardToken b) then
         respond 400 (error_only "cardToken is required")
       else if invalid_amount (amount b) then
         respond 400 (error_only "Valid amount is required")
       else
         transaction <- simulateTransaction
                          (VStr (get_string (cardToken b)))
                          (get_amount (amount b))
                          (webhookEndpoint b) ;;
         respond 200
           [("success", VBool true);
            ("data", transaction);
            ("message", VStr "Transaction simulated successfully")]
     else if is_action (action b) "balance" then
       if missing (userToken b) then
         respond 400 (error_only "userToken is required")
       else
         try_catch
           (balance <- getUserBalance (get_string (userToken b)) ;;
            respond 200 [("success", VBool true); ("data", balance)])
           (fun _ =>
              respond 200
                [("success", VBool true);
                 ("data", VObj [("gpa", VNull)]);
                 ("warning", VStr "Balance information not available")])
     else if is_action (action b) "clear" then
       if missing (transactionToken b) then
         respond 400 (error_only "transactionToken is required")
       else if invalid_amount (amount b) then
         respond 400 (error_only "Valid amount is required")
       else
         clearedTransaction <- clearTransaction
                                 (VStr (get_string (transactionToken b)))
                                 (get_amount (amount b)) ;;
         respond 200
           [("success", VBool true);
            ("data", clearedTransaction);
            ("message", VStr "Transaction cleared successfully")]
     else
       respond 400 (error_only "Invalid action"))
    setup_error_response.

(** *** The payment routes: shared pieces *)

(** [/^\d{13,19}$/.test(s)] *)
Definition panRegex (s : string) : bool :=
  Str.all Str.is_digit s && (13 <=? Str.len s)%nat && (Str.len s <=? 19)%nat.

(** The [catch] block shared by the NFC, QR and card-token routes. *)
Definition payment_error_response (error : value) : M response :=
  e <- getp_opt error "error" ;;
  md <- (if truthy e then
           m <- getp e "message" ;;
           ret (or_else m e, e)
         else
           m <- getp_opt error "message" ;;
           if truthy m then ret (m, VNull)
           else ret (VStr "Payment processing failed", VNull)) ;;
  st <- getp_opt error "status" ;;
  ret {| code := or_else st (num 500);
         payload := VObj [("success", VBool false);
                          ("error", fst md);
                          ("details", snd md)] |}.

Definition auto_clear_warning : string := "Transaction authorized but auto-clear failed".

(** *** pages/api/marqeta/nfc-pay.ts: payment by raw PAN *)

Definition nfc_pay (req : ApiRequest) : M response :=
  if negb (String.eqb (method req) "POST") then
    respond 405 (error_only "Method not allowed")
  else
  try_catch
    (let b := body req in
     let autoClear := match autoClear b with Some a => a | None => true end in
     if missing (pan b) then
       respond 400 (error_only "PAN (card number) is required")
     else
     let pan := get_string (pan b) in
     if negb (panRegex (Str.strip_spaces pan)) then
       respond 400 (error_only "Invalid PAN format. Must be 13-19 digits")
     else if invalid_amount (amount b) then
       respond 400 (error_only "Valid amount is required")
     else
     let amount := get_amount (amount b) in
     resources <- getResources ;;
     stored <- (if truthy (card resources) then getp (card resources) "pan"
                else ret VUndef) ;;
     if negb (truthy (card resources)) || negb (strict_eq_string stored pan) then
       respond 404
         [("error", VStr "Card not found. Please setup JIT funding first.");
          ("hint", VStr "The PAN from the NFC card must match the card created in the system.")]
     else
     let amountInCents := inject_Z (cents_of amount) in
     token <- getp (card resources) "token" ;;
     transaction <- simulateTransaction token amountInCents None ;;
     authorized <- (if autoClear then
                      t <- getp transaction "transaction" ;; getp_opt t "token"
                    else ret (VBool false)) ;;
     if truthy authorized then
       try_catch
         (t <- getp transaction "transaction" ;;
          txToken <- getp t "token" ;;
          _ <- clearTransaction txToken amountInCents ;;
          t' <- getp transaction "transaction" ;;
          gpa_order <- getp transaction "gpa_order" ;;
          respond 200
            [("success", VBool true);
             ("data", VObj [
                ("transaction", VObj (set_prop "state" (VStr "CLEARED") (spread [] t')));
                ("gpa_order", gpa_order);
                ("cleared", VBool true);
                ("cardLast4", VStr (Str.slice (-4) pan))])])
         (fun _ =>
            respond 200
              [("success", VBool true);
               ("data", VObj (set_prop "cardLast4" (VStr (Str.slice (-4) pan))
                               (set_prop "warning" (VStr auto_clear_warning)
                                 (spread [] transaction))))])
     else
       respond 200
         [("success", VBool true);
          ("data", VObj (set_prop "cardLast4" (VStr (Str.slice (-4) pan))
                          (spread [] transaction)))])
    payment_error_response.

(** *** QR payment route: payment by card token, auto-clear optional *)

Definition qr_pay (req : ApiRequest) : M response :=
  if negb (String.eqb (method req) "POST") then
    respond 405 (error_only "Method not allowed")
  else
  try_catch
    (let b := body req in
     let autoClear := match autoClear b with Some a => a | None => true end in
     if missing (cardToken b) then
       respond 400 (error_only "cardToken is required")
     else if invalid_amount (amount b) then
       respond 400 (error_only "Valid amount is required")
     else
     let cardToken := get_string (cardToken b) in
     let amountInCents := inject_Z (cents_of (get_amount (amount b))) in
     transaction <- simulateTransaction (VStr cardToken) amountInCents None ;;
     authorized <- (if autoClear then
                      t <- getp transaction "transaction" ;; getp_opt t "token"
                    else ret (VBool false)) ;;
     if truthy authorized then
       try_catch
         (t <- getp transaction "transaction" ;;
          txToken <- getp t "token" ;;
          _ <- clearTransaction txToken amountInCents ;;
          t' <- getp transaction "transaction" ;;
          gpa_order <- getp transaction "gpa_order" ;;
          respond 200
            [("success", VBool true);
             ("data", VObj [
                ("transaction", VObj (set_prop "state" (VStr "CLEARED") (spread [] t')));
                ("gpa_order", gpa_order);
                ("cleared", VBool true)])])
         (fun _ =>
            respond 200
              [("success", VBool true);
               ("data", VObj (set_prop "warning" (VStr auto_clear_warning)
                               (spread [] transaction)))])
     else
       respond 200 [("success", VBool true); ("data", transaction)])
    payment_error_response.

(** *** PIN-gated routes *)

(** Demo mode: universal PIN for all cards during development *)
Definition DEMO_PIN : string := "123456".

(** [CARD_PINS[pan]]: the static PAN-to-PIN table. *)
Definition CARD_PINS (pan : string) : option string :=
  if String.eqb pan "5112345123451234" then Some "123456" else None.

(** The common tail of the routes that call the platform with [fetch]
    directly: a rejected call, a non-2xx answer and an unparseable body all
    end in the [catch] block. *)
Definition direct_payment (rq : request) (amount : Q) (pan : string) : M response :=
  try_catch
    (marqetaResponse <- http rq ;;
     match marqetaResponse with
     | Rejected message => throw (Error message)
     | Answered st _ text parsed_body =>
         if negb (status_ok st) then throw (Error ("Marqeta API error: " ++ text))
         else
           match parsed_body with
           | Unparseable message => throw (Error message)
           | Json transaction =>
               respond 200
                 [("success", VBool true);
                  ("data", VObj [("transaction", transaction);
                                 ("amount", VNum amount);
                                 ("cardLast4", VStr (Str.slice (-4) pan))])]
           end
     end)
    (fun error =>
       m <- getp error "message" ;;
       ret {| code := num 500;
              payload := VObj [("error", or_else m (VStr "Payment processing failed"))] |}).

(** The request of the route that posts to [`${MARQETA_API_URL}/v3/transactions`]. *)
Definition transactions_request (E : env) (amount : Q) (pan : string) : request :=
  {| rq_method := "POST";
     rq_url := to_string E (of_option_string (MARQETA_API_URL E)) ++ "/v3/transactions";
     rq_body := Some (VObj [
       ("amount", num (cents_of amount));
       ("currency", VStr "USD");
       ("card_token", VStr pan);
       ("metadata", VObj [("payment_method", VStr "pin_entry")])]) |}.

(** pages/api/marqeta/process-pin-payment.ts, the version that posts to the
    sandbox authorization simulation. *)
Definition process_pin_payment (req : ApiRequest) : M response :=
  if negb (String.eqb (method req) "POST") then
    respond 405 (error_only "Method not allowed")
  else
  let b := body req in
  if missing (pan b) || missing (pin b) || no_amount (amount b) then
    respond 400 (error_only "Missing required fields")
  else
  let pan := get_string (pan b) in
  let pin := get_string (pin b) in
  let amount := get_amount (amount b) in
  if negb (Str.len pin =? 6)%nat then
    respond 400 (error_only "Invalid PIN length")
  else if negb (String.eqb pin DEMO_PIN) then
    respond 401 (error_only "Invalid PIN. Use demo PIN: 123456")
  else
  E <- ask ;;
  direct_payment
    {| rq_method := "POST";
       rq_url := "https://sandbox-api.marqeta.com"
                 ++ "/v3/simulations/cardtransactions/authorization";
       rq_body := Some (VObj [
         ("amount", VStr (number_toString E (Qmult amount (inject_Z 100))));
         ("card_token", VStr pan);
         ("card_acceptor", VObj [
            ("mid", VStr "1234567890");
            ("name", VStr "PIN Payment");
            ("street_address", VStr "123 Main St");
            ("city", VStr "San Francisco");
            ("state", VStr "CA");
            ("zip", VStr "94105");
            ("country_code", VStr "USA")]);
         ("network", VStr "VISA");
         ("metadata", VObj [("payment_method", VStr "pin_entry")])]) |}
    amount pan.

(** The version with the static PAN-to-PIN table. *)
Definition process_pin_payment_table (req : ApiRequest) : M response :=
  if negb (String.eqb (method req) "POST") then
    respond 405 (error_only "Method not allowed")
  else
  let b := body req in
  if missing (pan b) || missing (pin b) || no_amount (amount b) then
    respond 400 (error_only "Missing required fields")
  else
  let pan := get_string (pan b) in
  let pin := get_string (pin b) in
  let amount := get_amount (amount b) in
  if negb (Str.len pin =? 6)%nat then
    respond 400 (error_only "Invalid PIN length")
  else
  let correctPin := CARD_PINS pan in
  if missing correctPin || negb (String.eqb (get_string correctPin) pin) then
    respond 401 (error_only "Invalid PIN")
  else
  E <- ask ;;
  direct_payment (transactions_request E amount pan) amount pan.

(** The version with the universal demo PIN that posts to
    [`${MARQETA_API_URL}/v3/transactions`]. *)
Definition process_pin_payment_demo (req : ApiRequest) : M response :=
  if negb (String.eqb (method req) "POST") then
    respond 405 (error_only "Method not allowed")
  else
  let b := body req in
  if missing (pan b) || missing (pin b) || no_amount (amount b) then
    respond 400 (error_only "Missing required fields")
  else
  let pan := get_string (pan b) in
  let pin := get_string (pin b) in
  let amount := get_amount (amount b) in
  if negb (Str.len pin =? 6)%nat then
    respond 400 (error_only "Invalid PIN length")
  else if negb (String.eqb pin DEMO_PIN) then
    respond 401 (error_only "Invalid PIN. Use demo PIN: 123456")
  else
  E <- ask ;;
  direct_payment (transactions_request E amount pan) amount pan.

(** The PIN-gated route by card token: authorize, then always clear. *)
Definition pin_pay (req : ApiRequest) : M response :=
  if negb (String.eqb (method req) "POST") then
    respond 405 (error_only "Method not allowed")
  else
  let b := body req in
  if missing (cardToken b) || missing (pin b) || no_amount (amount b) then
    respond 400 (error_only "Missing required fields")
  else
  let cardToken := get_string (cardToken b) in
  let pin := get_string (pin b) in
  let amount := get_amount (amount b) in
  if negb (Str.len pin =? 6)%nat then
    respond 400 (error_only "Invalid PIN length")
  else if negb (String.eqb pin DEMO_PIN) then
    respond 401 (error_only "Invalid PIN. Use demo PIN: 123456")
  else
  try_catch
    (let amountInCents := inject_Z (cents_of amount) in
     transaction <- simulateTransaction (VStr cardToken) amountInCents None ;;
     t <- getp transaction "transaction" ;;
     authorized <- getp_opt t "token" ;;
     if truthy authorized then
       try_catch
         (t <- getp transaction "transaction" ;;
          txToken <- getp t "token" ;;
          _ <- clearTransaction txToken amountInCents ;;
          t' <- getp transaction "transaction" ;;
          gpa_order <- getp transaction "gpa_order" ;;
          respond 200
            [("success", VBool true);
             ("data", VObj [
                ("transaction", VObj (set_prop "state" (VStr "CLEARED") (spread [] t')));
                ("gpa_order", gpa_order);
                ("cleared", VBool true);
                ("cardLast4", VStr (Str.slice (-4) cardToken));
                ("amount", VNum amount)])])
         (fun _ =>
            respond 200
              [("success", VBool true);
               ("data", VObj (set_prop "warning" (VStr auto_clear_warning)
                               (spread [] transaction)))])
     else
       respond 200 [("success", VBool true); ("data", transaction)])
    payment_error_response.

(* ================================================================== *)
(** * A concrete platform, for running the model *)
(* ================================================================== *)

Definition api (path : string) : string := "https://" ++ MARQETA_API_BASE ++ "/v3" ++ path.

Definition created (v : value) : reply := Answered 201 "Created" EmptyString (Json v).

(** A sandbox that accepts every call and issues the demo card. *)
Definition sandbox (n : nat) (rq : request) : reply :=
  let u := rq_url rq in
  if String.eqb u (api "/cardproducts?count=1") then
    Answered 200 "OK" EmptyString (Json (VObj [("count", num 0); ("data", VArr [])]))
  else if String.eqb u (api "/fundingsources/program") then
    created (VObj [("token", VStr "fund_1"); ("name", VStr "JIT")])
  else if String.eqb u (api "/cardproducts") then
    created (VObj [("token", VStr "prod_1"); ("name", VStr "OneClick")])
  else if String.eqb u (api "/users") then
    created (VObj [("token", VStr "user_1"); ("first_name", VStr "OneClick");
                   ("last_name", VStr "User")])
  else if String.eqb u (api "/cards?show_pan=true&show_cvv_number=true") then
    created (VObj [("token", VStr "card_1"); ("pan", VStr "5112345123451234");
                   ("cvv_number", VStr "123"); ("expiration", VStr "1229");
                   ("state", VStr "ACTIVE")])
  else if String.eqb u (api "/velocitycontrols") then
    created (VObj [("token", VStr "vc_1"); ("velocity_window", VStr "DAY")])
  else if String.eqb u (api "/simulations/cardtransactions/authorization") then
    created (VObj [("transaction", VObj [("token", VStr "txn_1");
                                         ("state", VStr "PENDING");
                                         ("amount", num 10)]);
                   ("gpa_order", VObj [("token", VStr "gpa_1")])])
  else if String.eqb u (api "/simulations/cardtransactions/authorization.clearing") then
    created (VObj [("transaction", VObj [("token", VStr "txn_2");
                                         ("state", VStr "COMPLETION");
                                         ("type", VStr "authorization.clearing")])])
  else Answered 404 "Not Found" EmptyString (Unparseable "Unexpected end of JSON input").

(** The same sandbox, answering [status] with an error body on one URL. *)
Definition sandbox_failing (url : string) (st : Z) (n : nat) (rq : request) : reply :=
  if String.eqb (rq_url rq) url then
    Answered st "Error" EmptyString (Json (VObj [("error_message", VStr "rejected")]))
  else sandbox n rq.

Definition world (platform : nat -> request -> reply) : env :=
  {| fetch := platform;
     Date_now := fun n => (1730534400123 + N.of_nat n)%N;
     Math_random36 := fun _ => "0.k3f9zq1x";
     toTimeString := fun _ => "14:05:09 GMT+0000 (Coordinated Universal Time)";
     toISOString := fun _ => "2026-11-02T14:05:09.000Z";
     number_text := fun _ => "NaN";
     MARQETA_API_URL := None |}.

Definition no_body : Body :=
  {| action := None; amount := None; webhookEndpoint := None; cardToken := None;
     userToken := None; transactionToken := None; pan := None; pin := None;
     autoClear := None |}.

Definition post (b : Body) : ApiRequest := {| method := "POST"; body := b |}.

(** The state a successful [setup] on [sandbox] leaves behind. *)
Definition after_setup : state := snd (setupJITFunding (world sandbox) initial_state).

(* ================================================================== *)
(** * Reading a run: its exchanges and what they carried *)
(* ================================================================== *)

(** The call failed: [fetch] rejected, or the answer is not a 2xx. *)
Definition failed (rp : reply) : bool :=
  match rp with
  | Rejected _ => true
  | Answered st _ _ _ => negb (status_ok st)
  end.

(** [response.data] of a 2xx answer, as [marqetaRequest] returns it. *)
Definition entity_of (rp : reply) : option value :=
  match rp with
  | Rejected _ => None
  | Answered st _ _ body =>
      if status_ok st then
        Some (match body with Json v => v | Unparseable _ => VObj [] end)
      else None
  end.

(** The call succeeded and its answer carried an entity, not [null]. *)
Definition returned_entity (rp : reply) : bool :=
  match entity_of rp with
  | Some d => negb (nullish d)
  | None => false
  end.

Definition is_post (x : request * reply) : bool := String.eqb (rq_method (fst x)) "POST".

Definition sent_to (path : string) (x : request * reply) : bool :=
  String.eqb (rq_url (fst x)) (api path).

(** A call of the run went well: a creation call returned an entity, any
    other call was answered with a 2xx. *)
Definition call_ok (x : request * reply) : bool :=
  if is_post x then returned_entity (snd x) else negb (failed (snd x)).

Definition probe_path : string := "/cardproducts?count=1".
Definition fundingSource_path : string := "/fundingsources/program".
Definition cardProduct_path : string := "/cardproducts".
Definition user_path : string := "/users".
Definition card_path : string := "/cards?show_pan=true&show_cvv_number=true".
Definition velocityControl_path : string := "/velocitycontrols".
Definition authorization_path : string := "/simulations/cardtransactions/authorization".
Definition clearing_path : string := "/simulations/cardtransactions/authorization.clearing".

(** The run went on after this exchange: the funding-source call may fail
    (the sandbox default takes over), every other call has to go well. *)
Definition went_on (x : request * reply) : bool :=
  if sent_to fundingSource_path x then failed (snd x) || call_ok x else call_ok x.

Fixpoint at_path (ks : list string) (v : value) : value :=
  match ks with
  | [] => v
  | k :: ks' => at_path ks' (prop v k)
  end.

(** The field of a request's JSON body at a path of keys. *)
Definition body_field (ks : list string) (rq : request) : value :=
  match rq_body rq with
  | Some v => at_path ks v
  | None => VUndef
  end.

Definition probe : request :=
  {| rq_method := "GET"; rq_url := api probe_path; rq_body := None |}.

(** What [marqetaRequest] throws on a call that failed. *)
Definition thrown_by (rp : reply) : value :=
  match rp with
  | Rejected message => Error message
  | Answered st statusText _ body =>
      VObj [("status", num st);
            ("error", match body with
                      | Json v => v
                      | Unparseable _ => VObj [("message", VStr statusText)]
                      end)]
  end.

Definition status_of (rp : reply) : Z :=
  match rp with Rejected _ => 0%Z | Answered st _ _ _ => st end.

(** The state once the exchange [(rq, rp)] has been logged. *)
Definition logged (rq : request) (rp : reply) (s : state) : state :=
  {| resources := resources s;
     exchanges := (exchanges s ++ [(rq, rp)])%list;
     instant := S (instant s) |}.

(** The result of a creation step that sent [rq] and got [rp]: the entity
    goes into its slot, or the step throws and the slot is left alone. *)
Definition creation_result (slot : value -> registry -> registry)
    (rq : request) (rp : reply) (n : nat) (s : state) : outcome value * state :=
  match entity_of rp with
  | Some d =>
      (Ok d, {| resources := slot d (resources s);
                exchanges := (exchanges s ++ [(rq, rp)])%list; instant := n |})
  | None =>
      (Thrown (thrown_by rp),
       {| resources := resources s;
          exchanges := (exchanges s ++ [(rq, rp)])%list; instant := n |})
  end.

(** [error.error || error.message], the reason [setupJITFunding] reports. *)
Definition reason_of (error : value) : value :=
  or_else (prop error "error") (prop error "message").

(** The content of a registry slot after the exchanges [tr]: the entity of
    the call to [path] if there was one and it succeeded; [fallback], if
    any, when it failed; the content [before] otherwise. *)
Definition slot_after (path : string) (fallback : option value)
    (tr : list (request * reply)) (before : value) : value :=
  match find (sent_to path) tr with
  | Some (_, rp) =>
      match entity_of rp, fallback with
      | Some d, _ => d
      | None, Some f => f
      | None, None => before
      end
  | None => before
  end.

Definition registry_after (tr : list (request * reply)) (r : registry) : registry :=
  {| fundingSource :=
       slot_after fundingSource_path (Some defaultFundingSource) tr (fundingSource r);
     cardProduct := slot_after cardProduct_path None tr (cardProduct r);
     user := slot_after user_path None tr (user r);
     card := slot_after card_path None tr (card r);
     velocityControl := slot_after velocityControl_path None tr (velocityControl r) |}.

(** The funding source a run works with, given the answer to its creation
    call: the platform's entity, or the sandbox default. *)
Definition funding_source_from (rp : reply) : value :=
  match entity_of rp with Some d => d | None => defaultFundingSource end.

(** The six exchanges of a complete setup run and the tokens they hand
    forward: the card product request names the funding source, the card
    request names the user and the card product, the velocity control
    request names the user. *)
Definition referential_chain (tr : list (request * reply))
    (fs cp u c vc : value) : Prop :=
  exists q0 a0 q1 a1 q2 a2 q3 a3 q4 a4 q5 a5,
    tr = [(q0, a0); (q1, a1); (q2, a2); (q3, a3); (q4, a4); (q5, a5)]
    /\ q0 = probe
    /\ rq_url q1 = api fundingSource_path /\ fs = funding_source_from a1
    /\ rq_url q2 = api cardProduct_path /\ entity_of a2 = Some cp
    /\ rq_url q3 = api user_path /\ entity_of a3 = Some u
    /\ rq_url q4 = api card_path /\ entity_of a4 = Some c
    /\ rq_url q5 = api velocityControl_path /\ entity_of a5 = Some vc
    /\ body_field ["config"; "jit_funding"; "program_funding_source";
                   "funding_source_token"] q2 = prop fs "token"
    /\ body_field ["user_token"] q4 = prop u "token"
    /\ body_field ["card_product_token"] q4 = prop cp "token"
    /\ body_field ["association"; "user_token"] q5 = prop u "token".

(** The registry slots of the step a call belongs to and of the steps
    after it, in the order of the run. *)
Definition slots_from (x : request * reply) : list (registry -> value) :=
  if sent_to cardProduct_path x then [cardProduct; user; card; velocityControl]
  else if sent_to user_path x then [user; card; velocityControl]
  else if sent_to card_path x then [card; velocityControl]
  else if sent_to velocityControl_path x then [velocityControl]
  else [].

(** A failed creation call of one of the four aborting steps. *)
Definition failed_step (x : request * reply) : bool :=
  is_post x && failed (snd x)
  && (sent_to cardProduct_path x || sent_to user_path x
      || sent_to card_path x || sent_to velocityControl_path x).

(** The registry holds a card whose [pan] is exactly [p]. *)
Definition holds_pan (r : registry) (p : string) : bool :=
  truthy (card r) && strict_eq_string (prop (card r) "pan") p.

Definition card_not_found : response :=
  {| code := num 404;
     payload := VObj [
       ("error", VStr "Card not found. Please setup JIT funding first.");
       ("hint", VStr "The PAN from the NFC card must match the card created in the system.")] |}.

Definition bad_request (msg : string) : response :=
  {| code := num 400; payload := VObj (error_only msg) |}.

(** All three required fields of a PIN-gated request are present;
    [holder] is its [pan] or its [cardToken]. *)
Definition pin_fields_present (holder : option string) (b : Body) : bool :=
  negb (missing holder || missing (pin b) || no_amount (amount b)).

(** The message of the 400 answer to a request whose PIN is not six
    characters long. *)
Definition pin_rejection (holder : option string) (b : Body) : string :=
  if pin_fields_present holder b then "Invalid PIN length"
  else "Missing required fields".

Definition pin_payment (p : option string) (pn : string) (a : option Q) : Body :=
  {| action := None; amount := a; webhookEndpoint := None; cardToken := None;
     userToken := None; transactionToken := None; pan := p; pin := Some pn;
     autoClear := None |}.

(** The [amount] fields of the requests a run added to the log of [s]. *)
Definition amounts_sent (s s' : state) : list value :=
  map (fun x => body_field ["amount"] (fst x))
      (skipn (List.length (exchanges s)) (exchanges s')).

(** The transaction a route returns once the clearing call has succeeded:
    [{ ...transaction.transaction, state: 'CLEARED' }], built from the
    authorization data [d] alone. *)
Definition cleared_transaction (d : value) : value :=
  VObj (set_prop "state" (VStr "CLEARED") (spread [] (prop d "transaction"))).

(** The answer on the auto-clear success path; [extras] are the fields a
    route adds from its own request. *)
Definition cleared_response (d : value) (extras : props) : response :=
  {| code := num 200;
     payload :=
       VObj [("success", VBool true);
             ("data", VObj ([("transaction", cleared_transaction d);
                             ("gpa_order", prop d "gpa_order");
                             ("cleared", VBool true)] ++ extras)%list)] |}.

(** A run of [route] on the auto-clear success path: it made exactly two
    calls, the authorization, which returned the data [d] with a
    transaction token, and the clearing, which succeeded. *)
Definition auto_cleared (route : ApiRequest -> M response)
    (req : ApiRequest) (E : env) (s : state)
    (r : outcome response) (s' : state) (d : value) : Prop :=
  exists x1 x2,
    route req E s = (r, s')
    /\ exchanges s' = (exchanges s ++ [x1; x2])%list
    /\ sent_to authorization_path x1 = true
    /\ entity_of (snd x1) = Some d
    /\ truthy (prop (prop d "transaction") "token") = true
    /\ sent_to clearing_path x2 = true
    /\ failed (snd x2) = false.

(** Request bodies of the payment routes. *)
Definition pan_payment (p : string) (a : Q) (ac : option bool) : Body :=
  {| action := None; amount := Some a; webhookEndpoint := None; cardToken := None;
     userToken := None; transactionToken := None; pan := Some p; pin := None;
     autoClear := ac |}.

Definition token_payment (t : string) (pn : option string) (a : Q)
    (ac : option bool) : Body :=
  {| action := None; amount := Some a; webhookEndpoint := None; cardToken := Some t;
     userToken := None; transactionToken := None; pan := None; pin := pn;
     autoClear := ac |}.

Definition dispatch (name : string) (t : string) (a : Q) : Body :=
  {| action := Some name; amount := Some a; webhookEndpoint := None;
     cardToken := Some t; userToken := None; transactionToken := Some t;
     pan := None; pin := None; autoClear := None |}.

(* ================================================================== *)
(** * Further pieces of the program and of its runs *)
(* ================================================================== *)

(** [c] does not occur in [s]. *)
Definition free_of (c : ascii) (s : string) : bool :=
  Str.all (fun d => negb (Ascii.eqb c d)) s.

(** *** The PIN entry page: the three keypad handlers over the [pin] state *)
Module PinPad.

(** [s.slice(start, stop)] *)
Definition slice (start stop : Z) (s : string) : string :=
  let n := Z.of_nat (Str.len s) in
  let clamp i := if (i <? 0)%Z then Z.max (n + i) 0 else Z.min i n in
  let from := clamp start in
  let to := clamp stop in
  String.substring (Z.to_nat from) (Z.to_nat (Z.max (to - from) 0)) s.

(** [handlePinDigit(digit)] *)
Definition handlePinDigit (digit : string) (pin : string) : string :=
  if (Str.len pin <? 6)%nat then pin ++ digit else pin.

(** [handleBackspace()] *)
Definition handleBackspace (pin : string) : string := slice 0 (-1) pin.

(** [clearPin()] *)
Definition clearPin (pin : string) : string := EmptyString.

(** The buttons of the numpad: 1 to 9, Clear, 0, Backspace. *)
Inductive key :=
| Digit (d : string)
| Clear
| Backspace.

Definition press (pin : string) (k : key) : string :=
  match k with
  | Digit d => handlePinDigit d pin
  | Clear => clearPin pin
  | Backspace => handleBackspace pin
  end.

(** A numpad button: its digit is [num.toString()] for 1 to 9, or ['0']. *)
Definition on_numpad (k : key) : bool :=
  match k with
  | Digit d => (Str.len d =? 1)%nat && Str.all Str.is_digit d
  | _ => true
  end.

(** The [pin] state after a series of button presses on an empty field. *)
Definition entered (keys : list key) : string := fold_left press keys EmptyString.

End PinPad.

(** A 2xx answer whose body is empty or not JSON. *)
Definition answered_empty (x : request * reply) : bool :=
  match snd x with
  | Answered st _ _ (Unparseable _) => status_ok st
  | _ => false
  end.

(** A platform that accepts everything and says nothing. *)
Definition silent_platform (n : nat) (rq : request) : reply :=
  Answered 204 "No Content" EmptyString (Unparseable "Unexpected end of JSON input").

Definition setup_request : ApiRequest :=
  post {| action := Some "setup"; amount := None; webhookEndpoint := None;
          cardToken := None; userToken := None; transactionToken := None;
          pan := None; pin := None; autoClear := None |}.

(** The requests the dispatcher acts on: a POST with a known action and
    the fields that action requires. *)
Definition actionable (req : ApiRequest) : bool :=
  let b := body req in
  String.eqb (method req) "POST"
  && (is_action (action b) "setup"
      || is_action (action b) "simulate"
         && negb (missing (cardToken b)) && negb (invalid_amount (amount b))
      || is_action (action b) "balance" && negb (missing (userToken b))
      || is_action (action b) "clear"
         && negb (missing (transactionToken b)) && negb (invalid_amount (amount b))).

(** The status a [catch] block answers with for a call that failed:
    [error.status || 500]. *)
Definition relayed_status (rp : reply) : Z :=
  match rp with
  | Rejected _ => 500
  | Answered st _ _ _ => if (st =? 0)%Z then 500 else st
  end.

(** The request [getUserBalance] sends. *)
Definition balance_request (userToken : string) : request :=
  {| rq_method := "GET"; rq_url := api ("/users/" ++ userToken); rq_body := None |}.

Definition balance_unavailable : props :=
  [("success", VBool true);
   ("data", VObj [("gpa", VNull)]);
   ("warning", VStr "Balance information not available")].

(** The four PIN-gated routes. *)
Definition pin_routes : list (ApiRequest -> M response) :=
  [process_pin_payment; process_pin_payment_table; process_pin_payment_demo; pin_pay].

(** A 2xx answer with a JSON body. *)
Definition answered_json (rp : reply) : bool :=
  match rp with
  | Answered st _ _ (Json _) => status_ok st
  | _ => false
  end.

(** [`${process.env.MARQETA_API_URL}/v3/transactions`] *)
Definition transactions_url (E : env) : string :=
  match MARQETA_API_URL E with
  | Some base => base ++ "/v3/transactions"
  | None => "undefined/v3/transactions"
  end.

(** The three PIN routes that take a PAN and call the platform with
    [fetch] themselves. *)
Definition direct_routes : list (ApiRequest -> M response) :=
  [process_pin_payment; process_pin_payment_table; process_pin_payment_demo].

(** Every API route of the application. *)
Definition routes : list (ApiRequest -> M response) :=
  [setup_handler; nfc_pay; qr_pay; pin_pay;
   process_pin_payment; process_pin_payment_table; process_pin_payment_demo].

(* ================================================================== *)
(** * Strings and decimal digits *)
(* ================================================================== *)

Example token_format_ex :
  token_format "card" 1730534400123 "0.k3f9zq1x" = "card_34400123_k3f9".
Proof. reflexivity. Qed.

(** The routes on the demo platform: a complete setup, a request with the
    wrong method, and a PAN with blanks, which passes the format check but
    is not the stored card number. *)
Example setup_on_sandbox :
  resources after_setup
    = registry_after (exchanges after_setup) empty_registry
  /\ List.length (exchanges after_setup) = 6%nat
  /\ prop (card (resources after_setup)) "pan" = VStr "5112345123451234".
Proof. repeat split; vm_compute; reflexivity. Qed.

Example get_not_allowed :
  setup_handler {| method := "GET"; body := no_body |} (world sandbox) initial_state
    = (Ok {| code := num 405; payload := VObj (error_only "Method not allowed") |},
       initial_state).
Proof. vm_compute; reflexivity. Qed.

Example pan_with_blanks :
  panRegex (Str.strip_spaces "5112 3451 2345 1234") = true
  /\ fst (nfc_pay (post (pan_payment "5112 3451 2345 1234" (inject_Z 10) None))
            (world sandbox) after_setup)
     = Ok card_not_found.
Proof. split; vm_compute; reflexivity. Qed.

Section StringFacts.

Local Open Scope nat_scope.

Lemma length_append (a b : string) :
  String.length (a ++ b) = String.length a + String.length b.
Proof. induction a as [|c a IH]; cbn; [reflexivity | now rewrite IH]. Qed.

Lemma length_substring_le n m s : String.length (String.substring n m s) <= m.
Proof.
  revert n m. induction s as [|c s IH]; intros [|n] [|m]; cbn; try lia.
  - specialize (IH 0 m). lia.
  - specialize (IH n 0). lia.
  - apply (IH n (S m)).
Qed.

Lemma length_substring n m s :
  n + m <= String.length s -> String.length (String.substring n m s) = m.
Proof.
  revert n m. induction s as [|c s IH]; intros [|n] [|m]; cbn; intros H; try lia.
  - rewrite (IH 0 m); lia.
  - apply (IH n 0). lia.
  - apply (IH n (S m)). lia.
Qed.

Lemma all_substring p n m s :
  Str.all p s = true -> Str.all p (String.substring n m s) = true.
Proof.
  revert n m. induction s as [|c s IH]; intros [|n] [|m]; cbn; intros H;
    try reflexivity; apply andb_true_iff in H as [Hc Hs].
  - rewrite Hc. cbn. now apply IH.
  - now apply IH.
  - now apply IH.
Qed.

Lemma is_digit_digit_char d : (d < 10)%N -> Str.is_digit (Str.digit_char d) = true.
Proof.
  intros H. unfold Str.is_digit, Str.digit_char.
  rewrite N_ascii_embedding by lia.
  apply andb_true_iff. split; apply N.leb_le; lia.
Qed.

Lemma all_decimal_fuel fuel : forall n acc,
  Str.all Str.is_digit acc = true ->
  Str.all Str.is_digit (Str.decimal_fuel fuel n acc) = true.
Proof.
  induction fuel as [|f IH]; intros n acc Hacc; cbn [Str.decimal_fuel]; [exact Hacc|].
  assert (Hd : Str.all Str.is_digit (String (Str.digit_char (n mod 10)) acc) = true).
  { cbn. rewrite is_digit_digit_char, Hacc; [reflexivity|].
    apply N.mod_lt. discriminate. }
  destruct (n <? 10)%N; [exact Hd | now apply IH].
Qed.

Lemma all_digits_of_N n : Str.all Str.is_digit (Str.of_N n) = true.
Proof. apply all_decimal_fuel. reflexivity. Qed.

Lemma length_decimal_fuel_ge fuel : forall n acc,
  String.length acc <= String.length (Str.decimal_fuel fuel n acc).
Proof.
  induction fuel as [|f IH]; intros n acc; cbn [Str.decimal_fuel]; [lia|].
  destruct (n <? 10)%N; cbn; [lia|].
  specialize (IH (n / 10)%N (String (Str.digit_char (n mod 10)) acc)). cbn in IH. lia.
Qed.

(** A number of at least [10^(k-1)] has at least [k] digits, fuel permitting. *)
Lemma length_decimal_fuel_pow k : forall fuel n acc,
  k <= fuel -> (10 ^ N.of_nat (pred k) <= n)%N -> 0 < k ->
  k + String.length acc <= String.length (Str.decimal_fuel fuel n acc).
Proof.
  induction k as [|k IH]; intros fuel n acc Hk Hn Hpos; [lia|].
  destruct fuel as [|f]; [lia|]. cbn [Str.decimal_fuel].
  destruct k as [|k].
  - pose proof (length_decimal_fuel_ge f (n / 10)
                  (String (Str.digit_char (n mod 10)) acc)) as H.
    destruct (n <? 10)%N; cbn in *; lia.
  - destruct (n <? 10)%N eqn:Hlt.
    + apply N.ltb_lt in Hlt. exfalso.
      cbn [pred] in Hn.
      assert (H : (10 ^ 1 <= 10 ^ N.of_nat (S k))%N) by (apply N.pow_le_mono_r; lia).
      change (10 ^ 1)%N with 10%N in H. lia.
    + specialize (IH f (n / 10)%N (String (Str.digit_char (n mod 10)) acc)).
      cbn [String.length] in IH.
      assert (H : (10 ^ N.of_nat (pred (S k)) <= n / 10)%N).
      { cbn [pred] in *. apply N.div_le_lower_bound; [discriminate|].
        replace (N.of_nat (S k)) with (N.succ (N.of_nat k)) in Hn by lia.
        rewrite N.pow_succ_r' in Hn. exact Hn. }
      specialize (IH ltac:(lia) H ltac:(lia)). lia.
Qed.

Lemma length_of_N_ge8 n : (10 ^ 7 <= n)%N -> 8 <= String.length (Str.of_N n).
Proof.
  intros H. unfold Str.of_N.
  pose proof (length_decimal_fuel_pow 8 (S (N.to_nat (N.log2 n))) n EmptyString) as L.
  cbn [String.length] in L. rewrite Nat.add_0_r in L. apply L; [| exact H | lia].
  assert (H0 : (N.log2 (10 ^ 7) <= N.log2 n)%N) by (apply N.log2_le_mono; exact H).
  change (N.log2 (10 ^ 7)) with 23%N in H0. lia.
Qed.

Lemma substring_enough a m k s :
  String.length s - a <= m -> String.length s - a <= k ->
  String.substring a m s = String.substring a k s.
Proof.
  revert a m k. induction s as [|c s IH]; intros [|a] [|m] [|k] Hm Hk; cbn in *;
    try reflexivity; try lia.
  - f_equal. apply IH; lia.
  - apply (IH a 0 (S k)); lia.
  - apply (IH a (S m) 0); lia.
  - apply (IH a (S m) (S k)); lia.
Qed.

(** [s.slice(-k)] keeps the last [k] characters, or all of a shorter [s]. *)
Lemma slice_neg_length k s :
  0 < k ->
  String.length (Str.slice (- Z.of_nat k) s) = Nat.min k (String.length s).
Proof.
  intros Hk. unfold Str.slice, Str.len.
  destruct (- Z.of_nat k <? 0)%Z eqn:Hneg.
  - destruct (Nat.le_gt_cases k (String.length s)) as [Hle | Hgt].
    + rewrite Z.max_l by lia.
      replace (Z.to_nat (Z.of_nat (String.length s) + - Z.of_nat k))
        with (String.length s - k) by lia.
      pose proof (length_substring_le (String.length s - k) (String.length s) s).
      assert (S1 : String.substring (String.length s - k) (String.length s) s
                   = String.substring (String.length s - k) k s)
        by (apply substring_enough; lia).
      rewrite S1, length_substring; lia.
    + rewrite Z.max_r by lia. cbn [Z.to_nat].
      rewrite length_substring; lia.
  - apply Z.ltb_ge in Hneg. lia.
Qed.

Lemma slice_all p z s : Str.all p s = true -> Str.all p (Str.slice z s) = true.
Proof. intros H. unfold Str.slice. now apply all_substring. Qed.

End StringFacts.

Section DecimalFacts.

Local Open Scope N_scope.

Lemma to_N_aux_app a b x : Str.to_N_aux (a ++ b) x = Str.to_N_aux b (Str.to_N_aux a x).
Proof. revert x. induction a as [|c a IH]; intros x; cbn; [reflexivity | apply IH]. Qed.

Lemma digit_char_value d : d < 10 -> N_of_ascii (Str.digit_char d) - 48 = d.
Proof. intros H. unfold Str.digit_char. rewrite N_ascii_embedding; lia. Qed.

(** With enough fuel the digits written in front of [acc] denote [n]. *)
Lemma decimal_fuel_value fuel : forall n acc,
  n < 10 ^ N.of_nat fuel ->
  exists ds, Str.decimal_fuel fuel n acc = (ds ++ acc)%string /\
             forall x, Str.to_N_aux ds x = x * 10 ^ N.of_nat (String.length ds) + n.
Proof.
  induction fuel as [|f IH]; intros n acc Hn.
  - cbn in Hn. assert (n = 0) by lia. subst n. exists EmptyString. cbn. split; [reflexivity|].
    intros x. lia.
  - cbn [Str.decimal_fuel].
    assert (Hmod : n mod 10 < 10) by (apply N.mod_lt; discriminate).
    destruct (n <? 10) eqn:Hlt.
    + apply N.ltb_lt in Hlt. exists (String (Str.digit_char (n mod 10)) EmptyString).
      split; [reflexivity|]. intros x. cbn [Str.to_N_aux String.length].
      rewrite digit_char_value by exact Hmod. rewrite N.mod_small by exact Hlt.
      change (10 ^ N.of_nat 1) with 10. lia.
    + destruct (IH (n / 10) (String (Str.digit_char (n mod 10)) acc)) as (ds & Hds & Hval).
      { apply N.Div0.div_lt_upper_bound.
        replace (N.of_nat (S f)) with (N.succ (N.of_nat f)) in Hn by lia.
        rewrite N.pow_succ_r' in Hn. exact Hn. }
      exists (ds ++ String (Str.digit_char (n mod 10)) EmptyString)%string. split.
      * rewrite Hds. clear. induction ds as [|c ds IHd]; cbn; [reflexivity | now rewrite IHd].
      * intros x. rewrite to_N_aux_app, Hval. cbn [Str.to_N_aux].
        rewrite digit_char_value by exact Hmod.
        rewrite length_append. cbn [String.length].
        replace (N.of_nat (String.length ds + 1)) with (N.succ (N.of_nat (String.length ds)))
          by lia.
        rewrite N.pow_succ_r'.
        pose proof (N.div_mod n 10 ltac:(discriminate)) as Hdm. nia.
Qed.

(** [Str.of_N] never runs out of fuel: reading its digits gives [n] back. *)
Lemma of_N_to_N n : Str.to_N (Str.of_N n) = n.
Proof.
  unfold Str.of_N, Str.to_N.
  destruct (decimal_fuel_value (S (N.to_nat (N.log2 n))) n EmptyString) as (ds & Hds & Hval).
  - replace (N.of_nat (S (N.to_nat (N.log2 n)))) with (N.succ (N.log2 n)) by lia.
    destruct (N.eq_dec n 0) as [-> | Hnz]; [reflexivity|].
    pose proof (N.log2_spec n ltac:(lia)) as [_ Hlt].
    eapply N.lt_le_trans; [exact Hlt|].
    apply N.pow_le_mono_l. lia.
  - rewrite Hds, to_N_aux_app, Hval. cbn. lia.
Qed.

End DecimalFacts.

(* ================================================================== *)
(** * Token generation *)
(* ================================================================== *)

Lemma generateToken_run prefix E s :
  generateToken prefix E s =
    (Ok (token_format prefix (Date_now E (instant s)) (Math_random36 E (S (instant s)))),
     {| resources := resources s; exchanges := exchanges s;
        instant := S (S (instant s)) |}).
Proof. reflexivity. Qed.



(* ================================================================== *)
(** * Objects: lookup, assignment and spread *)
(* ================================================================== *)

Lemma lookup_app k o1 o2 :
  lookup k (o1 ++ o2)%list =
    match lookup k o2 with Some w => Some w | None => lookup k o1 end.
Proof.
  induction o1 as [|[k1 v1] o1 IH]; cbn.
  - destruct (lookup k o2); reflexivity.
  - rewrite IH. destruct (lookup k o2); [reflexivity|].
    destruct (lookup k o1); reflexivity.
Qed.

Lemma lookup_overwrite k v k' o :
  lookup k' (map (fun kv => if String.eqb k (fst kv) then (fst kv, v) else kv) o) =
    if String.eqb k' k
    then match lookup k o with Some _ => Some v | None => None end
    else lookup k' o.
Proof.
  induction o as [|[k1 v1] o IH]; cbn [map lookup fst snd].
  - destruct (String.eqb k' k); reflexivity.
  - rewrite IH. destruct (String.eqb_spec k k1) as [<- | Hk1].
    + destruct (String.eqb_spec k' k) as [-> | Hk'].
      * destruct (lookup k o); reflexivity.
      * reflexivity.
    + destruct (String.eqb_spec k' k) as [-> | Hk'].
      * destruct (lookup k o); [reflexivity|].
        destruct (String.eqb_spec k k1); [contradiction | reflexivity].
      * reflexivity.
Qed.

Lemma lookup_set_prop k v k' o :
  lookup k' (set_prop k v o) = if String.eqb k' k then Some v else lookup k' o.
Proof.
  unfold set_prop. destruct (lookup k o) eqn:Hk.
  - rewrite lookup_overwrite, Hk. reflexivity.
  - rewrite lookup_app. cbn.
    destruct (String.eqb_spec k' k) as [-> | Hk']; [reflexivity|].
    reflexivity.
Qed.

Lemma lookup_fold_set src : forall acc k,
  lookup k (fold_left (fun acc kv => set_prop (fst kv) (snd kv) acc) src acc) =
    match lookup k src with Some v => Some v | None => lookup k acc end.
Proof.
  induction src as [|[k1 v1] src IH]; intros acc k; cbn [fold_left lookup fst snd].
  - reflexivity.
  - rewrite IH. destruct (lookup k src); [reflexivity|].
    rewrite lookup_set_prop. destruct (String.eqb k k1); reflexivity.
Qed.

(** A property read on [{...v, k: x}] and on [{...v}], for an object [v]. *)
Lemma prop_spread o k : prop (VObj (spread [] (VObj o))) k = prop (VObj o) k.
Proof.
  unfold prop, spread, own_props. rewrite lookup_fold_set. cbn [lookup].
  destruct (lookup k o); reflexivity.
Qed.

Lemma prop_set_same k x o : prop (VObj (set_prop k x o)) k = x.
Proof. unfold prop. rewrite lookup_set_prop, String.eqb_refl. reflexivity. Qed.

Lemma prop_set_other k x o k' :
  k' <> k -> prop (VObj (set_prop k x o)) k' = prop (VObj o) k'.
Proof.
  intros H. unfold prop. rewrite lookup_set_prop.
  destruct (String.eqb_spec k' k); [contradiction | reflexivity].
Qed.

(** Only an object has a property with a truthy value. *)
Lemma truthy_prop_object v k : truthy (prop v k) = true -> exists o, v = VObj o.
Proof. destruct v; cbn; try discriminate. eauto. Qed.

(* ================================================================== *)
(** * The request client and the creation steps, one exchange each *)
(* ================================================================== *)

Lemma marqetaRequest_run m p d E s :
  let rq := {| rq_method := m; rq_url := api p;
               rq_body := if truthy d then Some d else None |} in
  let rp := fetch E (instant s) rq in
  marqetaRequest m p d E s =
    (match entity_of rp with
     | Some v => Ok {| status := status_of rp; data := v |}
     | None => Thrown (thrown_by rp)
     end, logged rq rp s).
Proof.
  cbv zeta. unfold marqetaRequest, bind, http, api.
  destruct (fetch E (instant s) _) as [msg | st stt txt bd]; cbn; [reflexivity|].
  destruct (status_ok st); reflexivity.
Qed.

Lemma testConnection_run E s :
  testConnection E s =
    (Ok (negb (failed (fetch E (instant s) probe))),
     logged probe (fetch E (instant s) probe) s).
Proof.
  unfold testConnection, try_catch, bind. rewrite marqetaRequest_run. cbv zeta.
  repeat match goal with
         | |- context [fetch E (instant s) ?rq] =>
             progress change rq with probe
         end.
  destruct (fetch E (instant s) probe) as [msg | st stt txt bd]; cbn; [reflexivity|].
  destruct (status_ok st); reflexivity.
Qed.

Arguments token_format : simpl never.
Arguments Str.substring : simpl never.
Arguments Str.split : simpl never.
Arguments Str.remove_first : simpl never.
Arguments Str.slice : simpl never.
Arguments Str.strip_spaces : simpl never.
Arguments String.append : simpl never.
Arguments to_string : simpl never.
Arguments number_toString : simpl never.
Arguments marqetaRequest : simpl never.
Arguments api : simpl never.

Ltac unfold_monad :=
  unfold clock_hhmm_compact, clock_hhmm, generateToken, read, getResources,
    update_resources, ask, tick, try_catch, bind, ret, throw, respond.

(** Runs a creation step up to its one call and splits on the answer. *)
Ltac run_step :=
  unfold_monad; cbn; rewrite marqetaRequest_run; cbv zeta;
  match goal with
  | |- context [fetch ?E ?n ?rq] =>
      exists rq, (fetch E n rq); unfold creation_result;
      destruct (entity_of (fetch E n rq))
  end.

Lemma createProgramFundingSource_run E s :
  exists rq rp n,
    rq_method rq = "POST" /\ rq_url rq = api fundingSource_path /\
    let fs := match entity_of rp with Some d => d | None => defaultFundingSource end in
    createProgramFundingSource E s =
      (Ok fs, {| resources := set_fundingSource fs (resources s);
                 exchanges := (exchanges s ++ [(rq, rp)])%list; instant := n |}).
Proof.
  unfold createProgramFundingSource. run_step; eexists; repeat split.
Qed.

Lemma createCardProduct_run fundingSourceToken E s :
  exists rq rp n,
    rq_method rq = "POST" /\ rq_url rq = api cardProduct_path /\
    body_field ["config"; "jit_funding"; "program_funding_source"; "funding_source_token"] rq
      = fundingSourceToken /\
    createCardProduct fundingSourceToken E s = creation_result set_cardProduct rq rp n s.
Proof.
  unfold createCardProduct. run_step; eexists; repeat split.
Qed.

Lemma createUser_run E s :
  exists rq rp n,
    rq_method rq = "POST" /\ rq_url rq = api user_path /\
    createUser VUndef E s = creation_result set_user rq rp n s.
Proof.
  unfold createUser. run_step; eexists; repeat split.
Qed.

Lemma createCard_run userToken cardProductToken E s :
  exists rq rp n,
    rq_method rq = "POST" /\ rq_url rq = api card_path /\
    body_field ["user_token"] rq = userToken /\
    body_field ["card_product_token"] rq = cardProductToken /\
    createCard userToken cardProductToken E s = creation_result set_card rq rp n s.
Proof.
  unfold createCard. run_step; eexists; repeat split.
Qed.

Lemma createVelocityControl_run userToken name E s :
  exists rq rp n,
    rq_method rq = "POST" /\ rq_url rq = api velocityControl_path /\
    body_field ["association"; "user_token"] rq = userToken /\
    createVelocityControl userToken name E s
      = creation_result set_velocityControl rq rp n s.
Proof.
  unfold createVelocityControl. run_step; eexists; repeat split.
Qed.

(* ================================================================== *)
(** * The setup run, exchange by exchange *)
(* ================================================================== *)

Arguments createProgramFundingSource : simpl never.
Arguments createCardProduct : simpl never.
Arguments createUser : simpl never.
Arguments createCard : simpl never.
Arguments createVelocityControl : simpl never.
Arguments testConnection : simpl never.
Arguments simulateTransaction : simpl never.
Arguments clearTransaction : simpl never.
Arguments nullish : simpl nomatch.
Arguments prop : simpl never.

Lemma getp_run v k E s :
  getp v k E s = if nullish v then (Thrown (TypeError_read (nullish_name v) k), s)
                 else (Ok (prop v k), s).
Proof. unfold getp. destruct (nullish v); reflexivity. Qed.

Lemma failed_entity rp :
  failed rp = match entity_of rp with Some _ => false | None => true end.
Proof.
  destruct rp as [m | st a b c]; cbn; [reflexivity|].
  destruct (status_ok st); reflexivity.
Qed.

Lemma nullish_thrown_by rp : nullish (thrown_by rp) = false.
Proof. destruct rp; reflexivity. Qed.

Lemma nullish_default : nullish defaultFundingSource = false.
Proof. reflexivity. Qed.

Lemma eqb_append_l a b c : String.eqb (a ++ b) (a ++ c) = String.eqb b c.
Proof.
  induction a as [|x a IH]; [reflexivity|].
  change (String x a ++ b =? String x a ++ c)
    with (if Ascii.eqb x x then (a ++ b =? a ++ c) else false).
  rewrite Ascii.eqb_refl. exact IH.
Qed.

Lemma api_eqb a b : String.eqb (api a) (api b) = String.eqb a b.
Proof. unfold api. rewrite !eqb_append_l. reflexivity. Qed.

Lemma call_ok_not_failed x : call_ok x = true -> failed (snd x) = false.
Proof.
  unfold call_ok, returned_entity. rewrite failed_entity.
  destruct (is_post x), (entity_of (snd x)); cbn; congruence.
Qed.

Lemma call_ok_went_on x : call_ok x = true -> went_on x = true.
Proof.
  intros H. unfold went_on. rewrite H, orb_true_r. destruct (sent_to _ x); reflexivity.
Qed.

(** The [catch] block turns whatever was thrown into a [Failure]. *)
Lemma setup_failure_run e E s :
  nullish e = false -> setup_failure e E s = (Ok (Failure (reason_of e)), s).
Proof.
  intros H. unfold setup_failure, bind, ret, reason_of, or_else.
  rewrite getp_run, H. destruct (truthy (prop e "error")); [reflexivity|].
  rewrite getp_run, H. reflexivity.
Qed.

Ltac unfold_monad_in H :=
  unfold clock_hhmm_compact, clock_hhmm, generateToken, read, getResources,
    update_resources, ask, tick, try_catch, bind, ret, throw, respond in H.

(** Symbolic execution of [setup_steps] in hypothesis [H]: every creation
    step is replaced by its one exchange, and the run splits on whether the
    call returned an entity and on whether that entity is [null]. *)
Ltac exec_step H lemma :=
  let Heq := fresh "Hrun" in
  let rq := fresh "q" in let rp := fresh "a" in let n := fresh "n" in
  destruct lemma as (rq & rp & n & Heq);
  repeat match type of Heq with
         | _ /\ _ => let Hf := fresh "Hq" in destruct Heq as [Hf Heq]
         end;
  cbv zeta in Heq; rewrite Heq in H; clear Heq; unfold creation_result in H;
  destruct (entity_of rp) eqn:?.

Ltac exec H :=
  repeat first
    [ rewrite testConnection_run in H
    | rewrite getp_run in H
    | rewrite nullish_default in H
    | match type of H with
      | context [createProgramFundingSource ?E ?s] =>
          exec_step H (createProgramFundingSource_run E s)
      | context [createCardProduct ?t ?E ?s] =>
          exec_step H (createCardProduct_run t E s)
      | context [createUser VUndef ?E ?s] =>
          exec_step H (createUser_run E s)
      | context [createCard ?t ?t' ?E ?s] =>
          exec_step H (createCard_run t t' E s)
      | context [createVelocityControl ?t ?nm ?E ?s] =>
          exec_step H (createVelocityControl_run t nm E s)
      | context [if nullish ?v then _ else _] =>
          first [ match goal with Hn : nullish v = _ |- _ => rewrite Hn in H end
                | destruct (nullish v) eqn:? ]
      | context [if negb (failed ?rp) then _ else _] => destruct (failed rp) eqn:?
      | context [negb (negb (failed ?rp))] => destruct (failed rp) eqn:?
      end
    | progress cbn in H ].

(** Rewrites with what is known about each exchange of the run. *)
Ltac facts :=
  repeat match goal with
         | H : entity_of ?a = _ |- context [entity_of ?a] => rewrite H
         | H : nullish ?v = _ |- context [nullish ?v] => rewrite H
         | H : failed ?a = _ |- context [failed ?a] => rewrite H
         | H : rq_method ?q = _ |- context [rq_method ?q] => rewrite H
         | H : rq_url ?q = _ |- context [rq_url ?q] => rewrite H
         end.

Ltac eval_run :=
  repeat (progress (
    unfold went_on, call_ok, failed_step, slots_from, is_post, sent_to,
      registry_after, slot_after, returned_entity, funding_source_from;
    cbn [forallb existsb find fst snd removelast last app rq_method rq_url probe];
    facts; rewrite ?failed_entity; facts;
    rewrite ?api_eqb; cbn)).

(** Every run of the [try] block: what it adds to the log, what it leaves
    in the registry, and how it ends. *)
Lemma setup_steps_run E s o s1 :
  setup_steps E s = (o, s1) ->
  exists tr,
    exchanges s1 = (exchanges s ++ tr)%list
    /\ resources s1 = registry_after tr (resources s)
    /\ match o with
       | Ok (Success fs cp u c vc) =>
           forallb went_on tr = true /\ referential_chain tr fs cp u c vc
       | Ok (Failure _) => False
       | Thrown e =>
           nullish e = false /\
           exists pre x, tr = (pre ++ [x])%list
                         /\ forallb went_on pre = true /\ went_on x = false
       end.
Proof.
  intros H. unfold setup_steps in H. unfold_monad_in H.
  exec H.
  all: inversion H; subst o s1; clear H; cbn [exchanges resources logged].
  all: rewrite <- ?app_assoc; cbn [app].
  all: eexists; split; [reflexivity|]; split.
  all: try (lazymatch goal with
            | |- _ /\ (exists pre x, ?tr = _ /\ _) =>
                split; [try apply nullish_thrown_by; reflexivity|];
                exists (removelast tr), (last tr (probe, Rejected EmptyString));
                split; [reflexivity|]
            end).
  all: eval_run.
  all: try (destruct (resources s); reflexivity).
  all: try (repeat split; reflexivity).
  all: try (split; [reflexivity|]).
  all: unfold referential_chain; do 12 eexists; split; [reflexivity|].
  all: unfold funding_source_from; facts; repeat split; assumption.
Qed.

(** Every run of [setupJITFunding] ends in [Success] after six exchanges
    that all went well, or in [Failure] right after an exchange that did
    not. *)
Lemma setupJITFunding_run E s r s' :
  setupJITFunding E s = (r, s') ->
  exists tr,
    exchanges s' = (exchanges s ++ tr)%list
    /\ resources s' = registry_after tr (resources s)
    /\ ((exists fs cp u c vc,
           r = Ok (Success fs cp u c vc)
           /\ forallb went_on tr = true /\ referential_chain tr fs cp u c vc)
        \/ (exists reason pre x,
              r = Ok (Failure reason)
              /\ tr = (pre ++ [x])%list
              /\ forallb went_on pre = true /\ went_on x = false)).
Proof.
  unfold setupJITFunding, try_catch.
  destruct (setup_steps E s) as [o s1] eqn:Hsteps.
  destruct (setup_steps_run _ _ _ _ Hsteps) as (tr & Hlog & Hreg & Hend).
  destruct o as [[fs cp u c vc | reason] | e].
  - intros H. inversion H; subst r s'. exists tr. repeat split; try assumption.
    left. exists fs, cp, u, c, vc. destruct Hend. repeat split; assumption.
  - contradiction.
  - destruct Hend as (Hn & pre & x & Htr & Hpre & Hx).
    rewrite (setup_failure_run _ _ _ Hn). intros H. inversion H; subst r s'.
    exists tr. repeat split; try assumption.
    right. exists (reason_of e), pre, x. repeat split; assumption.
Qed.

(* ================================================================== *)
(** * Properties of the setup run *)
(* ================================================================== *)

(** C1.  The entities [setupJITFunding] returns always satisfy the
    referential chain: the run made the probe and the five creation calls,
    the card product request carries the returned funding source's token,
    the card request carries the returned user's and card product's tokens,
    the velocity control request carries the returned user's token.  And the
    entities are returned in every run all of whose calls go well (the probe
    is answered, each creation call returns an entity). *)
Theorem setup_referential_chain (E : env) (s : state) r s' tr :
  setupJITFunding E s = (r, s') ->
  exchanges s' = (exchanges s ++ tr)%list ->
  (forall fs cp u c vc,
      r = Ok (Success fs cp u c vc) -> referential_chain tr fs cp u c vc)
  /\ (forallb call_ok tr = true ->
      exists fs cp u c vc, r = Ok (Success fs cp u c vc)).
Proof.
  intros Hrun Hlog.
  destruct (setupJITFunding_run _ _ _ _ Hrun) as (tr' & Hlog' & _ & Hend).
  rewrite Hlog' in Hlog. apply app_inv_head in Hlog. subst tr'.
  destruct Hend as [(fs & cp & u & c & vc & Hr & _ & Hchain)
                   | (reason & pre & x & Hr & Htr & _ & Hx)].
  - split.
    + intros fs' cp' u' c' vc' Hr'. rewrite Hr in Hr'.
      injection Hr' as <- <- <- <- <-. exact Hchain.
    + intros _. exists fs, cp, u, c, vc. exact Hr.
  - split.
    + intros fs cp u c vc Hr'. rewrite Hr in Hr'. discriminate.
    + intros Hok. subst tr. rewrite forallb_app in Hok. cbn in Hok.
      apply andb_true_iff in Hok as [_ Hok]. rewrite andb_true_r in Hok.
      apply call_ok_went_on in Hok. congruence.
Qed.

Lemma setup_referential_chain_witness :
  forallb call_ok (exchanges after_setup) = true /\
  exists fs cp u c vc,
    fst (setupJITFunding (world sandbox) initial_state) = Ok (Success fs cp u c vc)
    /\ referential_chain (exchanges after_setup) fs cp u c vc.
Proof.
  split; [vm_compute; reflexivity|].
  destruct (setup_referential_chain (world sandbox) initial_state
              (fst (setupJITFunding (world sandbox) initial_state))
              after_setup (exchanges after_setup))
    as [Hchain Hsuccess].
  - apply surjective_pairing.
  - vm_compute; reflexivity.
  - destruct Hsuccess as (fs & cp & u & c & vc & Hr); [vm_compute; reflexivity|].
    exists fs, cp, u, c, vc. split; [exact Hr | exact (Hchain _ _ _ _ _ Hr)].
Defined.

(** C4.  When the funding-source creation call fails and every other call
    of the run goes well, [setupJITFunding] returns [Success] and the
    funding source it returns has the token ["sandbox_program_funding"];
    and a failure of any call other than the funding-source creation makes
    the run return [Failure]. *)
Theorem setup_funding_source_fallback :
  (forall (E : env) (s : state) r s' tr,
      setupJITFunding E s = (r, s') ->
      exchanges s' = (exchanges s ++ tr)%list ->
      forallb (fun x => if sent_to fundingSource_path x
                        then failed (snd x) else call_ok x) tr = true ->
      exists fs cp u c vc,
        r = Ok (Success fs cp u c vc)
        /\ prop fs "token" = VStr "sandbox_program_funding")
  /\
  (forall (E : env) (s : state) r s' tr,
      setupJITFunding E s = (r, s') ->
      exchanges s' = (exchanges s ++ tr)%list ->
      existsb (fun x => failed (snd x) && negb (sent_to fundingSource_path x)) tr = true ->
      exists reason, r = Ok (Failure reason)).
Proof.
  split; intros E s r s' tr Hrun Hlog Hyp;
    destruct (setupJITFunding_run _ _ _ _ Hrun) as (tr' & Hlog' & _ & Hend);
    rewrite Hlog' in Hlog; apply app_inv_head in Hlog; subst tr';
    destruct Hend as [(fs & cp & u & c & vc & Hr & Hwent & Hchain)
                     | (reason & pre & x & Hr & Htr & _ & Hx)].
  - exists fs, cp, u, c, vc. split; [assumption|].
    destruct Hchain as (q0 & a0 & q1 & a1 & q2 & a2 & q3 & a3 & q4 & a4 & q5 & a5
                        & -> & _ & Hu1 & -> & _).
    cbn [forallb] in Hyp. apply andb_true_iff in Hyp as [_ Hyp].
    apply andb_true_iff in Hyp as [Hyp _].
    unfold sent_to in Hyp. cbn [fst snd] in Hyp.
    rewrite Hu1, String.eqb_refl, failed_entity in Hyp.
    unfold funding_source_from. destruct (entity_of a1); [discriminate | reflexivity].
  - subst tr. rewrite forallb_app in Hyp. cbn in Hyp.
    apply andb_true_iff in Hyp as [_ Hyp]. rewrite andb_true_r in Hyp.
    unfold went_on in Hx. destruct (sent_to fundingSource_path x).
    + rewrite Hyp in Hx. discriminate.
    + congruence.
  - apply existsb_exists in Hyp as (x & Hin & Hx).
    apply andb_true_iff in Hx as [Hfail Hnfs]. apply negb_true_iff in Hnfs.
    rewrite forallb_forall in Hwent. specialize (Hwent x Hin).
    unfold went_on in Hwent. rewrite Hnfs in Hwent.
    apply call_ok_not_failed in Hwent. congruence.
  - exists reason. assumption.
Qed.

Lemma setup_funding_source_fallback_witness :
  let E1 := world (sandbox_failing (api fundingSource_path) 404) in
  let E2 := world (sandbox_failing (api user_path) 500) in
  (exists fs cp u c vc,
     fst (setupJITFunding E1 initial_state) = Ok (Success fs cp u c vc)
     /\ prop fs "token" = VStr "sandbox_program_funding")
  /\ (exists reason, fst (setupJITFunding E2 initial_state) = Ok (Failure reason)).
Proof.
  split.
  - apply (proj1 setup_funding_source_fallback
             (world (sandbox_failing (api fundingSource_path) 404)) initial_state
             _ (snd (setupJITFunding
                       (world (sandbox_failing (api fundingSource_path) 404))
                       initial_state))
             (exchanges (snd (setupJITFunding
                       (world (sandbox_failing (api fundingSource_path) 404))
                       initial_state))));
      [apply surjective_pairing | vm_compute; reflexivity | vm_compute; reflexivity].
  - apply (proj2 setup_funding_source_fallback
             (world (sandbox_failing (api user_path) 500)) initial_state
             _ (snd (setupJITFunding
                       (world (sandbox_failing (api user_path) 500)) initial_state))
             (exchanges (snd (setupJITFunding
                       (world (sandbox_failing (api user_path) 500)) initial_state))));
      [apply surjective_pairing | vm_compute; reflexivity | vm_compute; reflexivity].
Defined.

(** C6, as the code has it.  When the connectivity probe fails,
    [setupJITFunding] returns [Failure] with the reason "Failed to connect
    to Marqeta API. Please check your credentials."; the probe is the only
    call of the run (it is not retried and no creation call follows), and
    the registry is untouched. *)
Theorem setup_probe_failure (E : env) (s : state) :
  failed (fetch E (instant s) probe) = true ->
  fst (setupJITFunding E s) = Ok (Failure (VStr connect_failure))
  /\ resources (snd (setupJITFunding E s)) = resources s
  /\ exchanges (snd (setupJITFunding E s))
     = (exchanges s ++ [(probe, fetch E (instant s) probe)])%list.
Proof.
  intros Hfail.
  assert (Hrun : setupJITFunding E s =
                 (Ok (Failure (VStr connect_failure)),
                  logged probe (fetch E (instant s) probe) s)).
  { unfold setupJITFunding, setup_steps, try_catch, bind.
    rewrite testConnection_run, Hfail. reflexivity. }
  rewrite Hrun. repeat split.
Qed.

Lemma setup_probe_failure_witness :
  let E := world (sandbox_failing (api probe_path) 401) in
  failed (fetch E (instant initial_state) probe) = true
  /\ fst (setupJITFunding E initial_state) = Ok (Failure (VStr connect_failure))
  /\ resources (snd (setupJITFunding E initial_state)) = resources initial_state
  /\ exchanges (snd (setupJITFunding E initial_state))
     = (exchanges initial_state
        ++ [(probe, fetch E (instant initial_state) probe)])%list.
Proof.
  split; [vm_compute; reflexivity|].
  apply (setup_probe_failure (world (sandbox_failing (api probe_path) 401)) initial_state).
  vm_compute; reflexivity.
Defined.

(** C6 as stated fails: the reason of the failure is not the text
    "cannot reach upstream platform". *)
Lemma setup_probe_failure_reason_differs :
  let E := world (sandbox_failing (api probe_path) 401) in
  failed (fetch E (instant initial_state) probe) = true
  /\ fst (setupJITFunding E initial_state)
     <> Ok (Failure (VStr "cannot reach upstream platform")).
Proof.
  split; [vm_compute; reflexivity|].
  vm_compute. discriminate.
Qed.

(** C2, as the code has it.  When the creation call of the card product,
    the user, the card or the velocity control fails, [setupJITFunding]
    returns [Failure] and that call is the last of the run; the registry is
    not restored: each slot holds what the earlier calls of the run put
    there (the funding source slot is always among them), and only the
    slots of the failing step and of the steps after it are as before. *)
Theorem setup_failure_keeps_earlier_entities (E : env) (s : state) r s' tr :
  setupJITFunding E s = (r, s') ->
  exchanges s' = (exchanges s ++ tr)%list ->
  existsb failed_step tr = true ->
  exists reason pre x,
    r = Ok (Failure reason)
    /\ tr = (pre ++ [x])%list
    /\ failed_step x = true
    /\ resources s' = registry_after pre (resources s)
    /\ existsb (sent_to fundingSource_path) pre = true
    /\ Forall (fun slot => slot (resources s') = slot (resources s)) (slots_from x).
Proof.
  intros Hrun Hlog Hyp.
  unfold setupJITFunding, try_catch in Hrun.
  destruct (setup_steps E s) as [o s1] eqn:H.
  unfold setup_steps in H. unfold_monad_in H.
  exec H.
  all: inversion H; subst o s1; clear H.
  all: try (rewrite setup_failure_run in Hrun
              by (try apply nullish_thrown_by; reflexivity)).
  all: inversion Hrun; subst r s'; clear Hrun.
  all: cbn [exchanges resources logged] in *.
  all: rewrite <- ?app_assoc in Hlog; cbn [app] in Hlog.
  all: apply app_inv_head in Hlog; subst tr.
  all: revert Hyp; eval_run; intros Hyp; try discriminate Hyp.
  all: lazymatch goal with
       | |- exists reason pre x, _ /\ ?tr = _ /\ _ =>
           eexists _, (removelast tr), (last tr (probe, Rejected EmptyString))
       end.
  all: split; [reflexivity|]; split; [reflexivity|].
  all: eval_run.
  all: repeat split; try reflexivity.
  all: repeat constructor.
Qed.

Lemma setup_failure_keeps_earlier_entities_witness :
  let E := world (sandbox_failing (api card_path) 500) in
  let s' := snd (setupJITFunding E initial_state) in
  existsb failed_step (exchanges s') = true /\
  exists reason pre x,
    fst (setupJITFunding E initial_state) = Ok (Failure reason)
    /\ exchanges s' = (pre ++ [x])%list
    /\ failed_step x = true
    /\ resources s' = registry_after pre (resources initial_state)
    /\ existsb (sent_to fundingSource_path) pre = true
    /\ Forall (fun slot => slot (resources s') = slot (resources initial_state))
         (slots_from x).
Proof.
  split; [vm_compute; reflexivity|].
  apply (setup_failure_keeps_earlier_entities
           (world (sandbox_failing (api card_path) 500)) initial_state).
  - apply surjective_pairing.
  - vm_compute; reflexivity.
  - vm_compute; reflexivity.
Defined.

(** C2 as stated fails: after a run that the card product creation aborts,
    the registry is not what it was, since the funding source created
    earlier in the run sits in its slot. *)
Lemma setup_failure_changes_registry :
  let E := world (sandbox_failing (api cardProduct_path) 500) in
  let s' := snd (setupJITFunding E initial_state) in
  existsb failed_step (exchanges s') = true
  /\ (exists reason, fst (setupJITFunding E initial_state) = Ok (Failure reason))
  /\ fundingSource (resources s') = VObj [("token", VStr "fund_1"); ("name", VStr "JIT")]
  /\ resources s' <> resources initial_state.
Proof.
  split; [vm_compute; reflexivity|].
  split; [eexists; vm_compute; reflexivity|].
  split; [vm_compute; reflexivity|].
  vm_compute. discriminate.
Qed.

(* ================================================================== *)
(** * The payment routes, exchange by exchange *)
(* ================================================================== *)

Arguments set_prop : simpl never.
Arguments spread : simpl never.
Arguments panRegex : simpl never.
Arguments invalid_amount : simpl never.
Arguments no_amount : simpl never.
Arguments missing : simpl never.
Arguments cents_of : simpl never.
Arguments payment_error_response : simpl never.
Arguments setup_error_response : simpl never.

Lemma getp_opt_run v k E s : getp_opt v k E s = (Ok (prop v k), s).
Proof.
  unfold getp_opt. destruct (nullish v) eqn:Hn; [|now rewrite getp_run, Hn].
  destruct v; try discriminate; reflexivity.
Qed.

Lemma simulateTransaction_run cardToken amount webhookEndpoint E s :
  exists rq rp,
    rq_method rq = "POST" /\ rq_url rq = api authorization_path /\
    body_field ["card_token"] rq = cardToken /\
    body_field ["amount"] rq = VStr (number_toString E amount) /\
    simulateTransaction cardToken amount webhookEndpoint E s =
      (match entity_of rp with Some d => Ok d | None => Thrown (thrown_by rp) end,
       logged rq rp s).
Proof.
  unfold simulateTransaction. unfold_monad. cbn. rewrite marqetaRequest_run. cbv zeta.
  match goal with
  | |- context [fetch ?E ?n ?rq] =>
      exists rq, (fetch E n rq); destruct (entity_of (fetch E n rq))
  end; repeat split.
Qed.

Lemma clearTransaction_run transactionToken amount E s :
  exists rq rp,
    rq_method rq = "POST" /\ rq_url rq = api clearing_path /\
    body_field ["preceding_related_transaction_token"] rq = transactionToken /\
    body_field ["amount"] rq = VNum (Qred (Qdiv amount (inject_Z 100))) /\
    clearTransaction transactionToken amount E s =
      (match entity_of rp with Some d => Ok d | None => Thrown (thrown_by rp) end,
       logged rq rp s).
Proof.
  unfold clearTransaction. unfold_monad. cbn. rewrite marqetaRequest_run. cbv zeta.
  match goal with
  | |- context [fetch ?E ?n ?rq] =>
      exists rq, (fetch E n rq); destruct (entity_of (fetch E n rq))
  end; repeat split.
Qed.

(** Only an object has a property that is not [undefined]. *)
Lemma prop_of_object v k : prop v k <> VUndef -> exists o, v = VObj o.
Proof. destruct v; unfold prop; try congruence. eauto. Qed.

(** The shared [catch] block answers without touching the state. *)
Lemma payment_error_response_state e E s :
  exists resp, payment_error_response e E s = (Ok resp, s).
Proof.
  unfold payment_error_response, bind, ret. rewrite getp_opt_run.
  destruct (truthy (prop e "error")) eqn:Ht.
  - rewrite getp_run.
    destruct (nullish (prop e "error")) eqn:Hn.
    { destruct (prop e "error"); discriminate. }
    rewrite getp_opt_run. eauto.
  - rewrite getp_opt_run. destruct (truthy (prop e "message")); rewrite getp_opt_run; eauto.
Qed.

Ltac exec_call H lemma :=
  let Heq := fresh "Hrun" in
  let rq := fresh "q" in let rp := fresh "a" in
  destruct lemma as (rq & rp & Heq);
  repeat match type of Heq with
         | _ /\ _ => let Hf := fresh "Hq" in destruct Heq as [Hf Heq]
         end;
  rewrite Heq in H; clear Heq; destruct (entity_of rp) eqn:?.

(** Symbolic execution of a payment route in hypothesis [H]. *)
Ltac exec_pay H :=
  repeat first
    [ rewrite getp_run in H
    | rewrite getp_opt_run in H
    | match type of H with
      | context [simulateTransaction ?t ?a ?w ?E ?s] =>
          exec_call H (simulateTransaction_run t a w E s)
      | context [clearTransaction ?t ?a ?E ?s] =>
          exec_call H (clearTransaction_run t a E s)
      | context [payment_error_response ?e ?E ?s] =>
          let resp := fresh "resp" in let Heq := fresh "Hresp" in
          destruct (payment_error_response_state e E s) as (resp & Heq);
          rewrite Heq in H; clear Heq
      | context [if ?c then _ else _] =>
          first [ match goal with Hc : c = _ |- _ => rewrite Hc in H end
                | destruct c eqn:? ]
      end
    | progress cbn in H ].

(** A run that adds nothing, or too little, to the log cannot have made
    the exchanges [tr]. *)
Ltac same_log H :=
  cbn [exchanges resources logged] in H;
  rewrite <- ?app_assoc in H; cbn [app] in H;
  first [ apply app_inv_head in H
        | rewrite <- (app_nil_r (exchanges _)) in H at 1; apply app_inv_head in H ].

(** C5.  On the PAN route with [autoClear] on, when the authorization call
    returns a transaction with a token and the clearing call that follows
    fails, the answer is 200 with [success: true]; its data are the
    authorization data as the platform returned them (the uncleared
    transaction included) plus a non-empty [warning] and [cardLast4]. *)
Theorem nfc_pay_clearing_failure (E : env) (s : state) req r s' x1 x2 d :
  nfc_pay req E s = (r, s') ->
  autoClear (body req) <> Some false ->
  exchanges s' = (exchanges s ++ [x1; x2])%list ->
  sent_to authorization_path x1 = true ->
  entity_of (snd x1) = Some d ->
  truthy (prop (prop d "transaction") "token") = true ->
  sent_to clearing_path x2 = true ->
  failed (snd x2) = true ->
  exists dat w,
    r = Ok {| code := num 200;
              payload := VObj [("success", VBool true); ("data", dat)] |}
    /\ prop dat "transaction" = prop d "transaction"
    /\ (forall k, k <> "warning" -> k <> "cardLast4" -> prop dat k = prop d k)
    /\ prop dat "warning" = VStr w /\ w <> EmptyString.
Proof.
  intros Hrun Hauto Hlog Hx1 Hd Htok Hx2 Hfail.
  unfold nfc_pay in Hrun. unfold_monad_in Hrun.
  exec_pay Hrun.
  all: inversion Hrun; subst r s'; clear Hrun.
  all: same_log Hlog.
  all: try discriminate Hlog.
  all: injection Hlog as <- <-; cbn [snd] in *.
  all: rewrite failed_entity in Hfail;
    match goal with Ha : entity_of ?a = _, Hf : context [entity_of ?a] |- _ =>
      rewrite Ha in Hf end; try discriminate Hfail.
  all: rewrite Hd in *;
    match goal with Ha : Some _ = Some _ |- _ => injection Ha as -> end.
  all: destruct (truthy_prop_object _ _ Htok) as [o1 Ho1].
  all: match type of Ho1 with
       | prop ?d _ = _ =>
           destruct (prop_of_object d "transaction") as [o ->];
           [rewrite Ho1; discriminate|]
       end.
  all: eexists _, _; split; [reflexivity|]; repeat split.
  all: try (rewrite !prop_set_other, prop_spread by discriminate; reflexivity).
  all: try (intros k Hw Hc; rewrite !prop_set_other, prop_spread by assumption;
            reflexivity).
  all: try (rewrite prop_set_other by discriminate; rewrite prop_set_same; reflexivity).
  all: unfold auto_clear_warning; discriminate.
Qed.

Lemma nfc_pay_clearing_failure_witness :
  let E := world (sandbox_failing (api clearing_path) 422) in
  let req := post {| action := None; amount := Some (inject_Z 10); webhookEndpoint := None;
                     cardToken := None; userToken := None; transactionToken := None;
                     pan := Some "5112345123451234"; pin := None;
                     autoClear := Some true |} in
  exists dat w,
    fst (nfc_pay req E after_setup)
      = Ok {| code := num 200;
              payload := VObj [("success", VBool true); ("data", dat)] |}
    /\ prop dat "transaction"
       = VObj [("token", VStr "txn_1"); ("state", VStr "PENDING"); ("amount", num 10)]
    /\ prop dat "warning" = VStr w /\ w <> EmptyString.
Proof.
  intros E req.
  destruct (nfc_pay_clearing_failure E after_setup req
              (fst (nfc_pay req E after_setup)) (snd (nfc_pay req E after_setup))
              (nth 0 (skipn 6 (exchanges (snd (nfc_pay req E after_setup))))
                 (probe, Rejected EmptyString))
              (nth 1 (skipn 6 (exchanges (snd (nfc_pay req E after_setup))))
                 (probe, Rejected EmptyString))
              (VObj [("transaction", VObj [("token", VStr "txn_1");
                                           ("state", VStr "PENDING");
                                           ("amount", num 10)]);
                     ("gpa_order", VObj [("token", VStr "gpa_1")])]))
    as (dat & w & Hr & Ht & _ & Hw & Hne).
  - apply surjective_pairing.
  - discriminate.
  - vm_compute; reflexivity.
  - vm_compute; reflexivity.
  - vm_compute; reflexivity.
  - vm_compute; reflexivity.
  - vm_compute; reflexivity.
  - vm_compute; reflexivity.
  - exists dat, w. repeat split; assumption.
Defined.


Lemma truthy_not_nullish v : truthy v = true -> nullish v = false.
Proof. destruct v; cbn; congruence. Qed.

Lemma panRegex_nonempty p : panRegex (Str.strip_spaces p) = true -> missing (Some p) = false.
Proof.
  destruct p as [|c p]; [|reflexivity].
  unfold panRegex, Str.strip_spaces. cbn. discriminate.
Qed.

Lemma positive_amount_valid a : (0 < a)%Q -> invalid_amount (Some a) = false.
Proof.
  intros H. unfold invalid_amount.
  apply orb_false_iff. split.
  - destruct (Qeq_bool a 0) eqn:He; [|reflexivity].
    apply Qeq_bool_iff in He. rewrite He in H. exfalso. exact (Qlt_irrefl _ H).
  - destruct (Qle_bool a 0) eqn:Hl; [|reflexivity].
    apply Qle_bool_iff in Hl. exfalso. exact (Qlt_not_le _ _ H Hl).
Qed.

(** C7, as the code has it.  For a POST to the PAN route with a
    syntactically valid PAN and a positive amount: when the registry holds
    a card whose [pan] is exactly the PAN supplied, the first call the
    request makes is the authorization, with that card's token; otherwise
    the answer is 404 "Card not found. Please setup JIT funding first." and
    nothing is sent to the platform. *)
Theorem nfc_pay_card_lookup (E : env) (s : state) req p a r s' :
  method req = "POST" ->
  pan (body req) = Some p ->
  panRegex (Str.strip_spaces p) = true ->
  amount (body req) = Some a ->
  (0 < a)%Q ->
  nfc_pay req E s = (r, s') ->
  if holds_pan (resources s) p
  then exists rq rp rest,
         exchanges s' = (exchanges s ++ (rq, rp) :: rest)%list
         /\ rq_method rq = "POST"
         /\ rq_url rq = api authorization_path
         /\ body_field ["card_token"] rq = prop (card (resources s)) "token"
  else r = Ok card_not_found /\ s' = s.
Proof.
  intros Hm Hpan Hre Ha Hpos Hrun.
  unfold nfc_pay in Hrun. unfold_monad_in Hrun.
  rewrite Hm, Hpan, Ha in Hrun. cbn [String.eqb Ascii.eqb Bool.eqb negb get_string get_amount] in Hrun.
  rewrite (panRegex_nonempty _ Hre), Hre, (positive_amount_valid _ Hpos) in Hrun.
  cbn [negb] in Hrun.
  unfold holds_pan.
  destruct (truthy (card (resources s))) eqn:Hcard.
  - pose proof (truthy_not_nullish _ Hcard) as Hnn.
    rewrite getp_run, Hnn in Hrun. cbn [negb orb andb] in *.
    destruct (strict_eq_string (prop (card (resources s)) "pan") p) eqn:Hsame.
    + cbn [negb] in Hrun. exec_pay Hrun.
      all: inversion Hrun; subst r s'; clear Hrun.
      all: cbn [exchanges resources logged]; rewrite <- ?app_assoc; cbn [app].
      all: eexists _, _, _; split; [reflexivity|]; repeat split; assumption.
    + cbn in Hrun. inversion Hrun. split; reflexivity.
  - cbn in Hrun. inversion Hrun. split; reflexivity.
Qed.

Lemma nfc_pay_card_lookup_witness :
  let req p := post {| action := None; amount := Some (inject_Z 10);
                       webhookEndpoint := None; cardToken := None; userToken := None;
                       transactionToken := None; pan := Some p; pin := None;
                       autoClear := None |} in
  (exists rq rp rest,
     exchanges (snd (nfc_pay (req "5112345123451234") (world sandbox) after_setup))
       = (exchanges after_setup ++ (rq, rp) :: rest)%list
     /\ rq_method rq = "POST"
     /\ rq_url rq = api authorization_path
     /\ body_field ["card_token"] rq = VStr "card_1")
  /\ (fst (nfc_pay (req "4111111111111111") (world sandbox) after_setup)
        = Ok card_not_found
      /\ snd (nfc_pay (req "4111111111111111") (world sandbox) after_setup)
        = after_setup).
Proof.
  intros req. split.
  - exact (nfc_pay_card_lookup (world sandbox) after_setup (req "5112345123451234")
             "5112345123451234" (inject_Z 10) _ _
             eq_refl eq_refl eq_refl eq_refl eq_refl (surjective_pairing _)).
  - exact (nfc_pay_card_lookup (world sandbox) after_setup (req "4111111111111111")
             "4111111111111111" (inject_Z 10) _ _
             eq_refl eq_refl eq_refl eq_refl eq_refl (surjective_pairing _)).
Defined.

(** C7 as stated fails on a request with a valid PAN that the registry
    holds but without a positive amount: the answer is 400, neither the
    authorization nor a 404. *)
Lemma nfc_pay_valid_pan_rejected :
  let req := post {| action := None; amount := Some (inject_Z 0);
                     webhookEndpoint := None; cardToken := None; userToken := None;
                     transactionToken := None; pan := Some "5112345123451234";
                     pin := None; autoClear := None |} in
  panRegex (Str.strip_spaces "5112345123451234") = true
  /\ holds_pan (resources after_setup) "5112345123451234" = true
  /\ nfc_pay req (world sandbox) after_setup
     = (Ok (bad_request "Valid amount is required"), after_setup).
Proof.
  repeat split; vm_compute; reflexivity.
Qed.

Lemma cleared_transaction_fields d :
  truthy (prop (prop d "transaction") "token") = true ->
  prop (cleared_transaction d) "state" = VStr "CLEARED"
  /\ forall k, k <> "state" -> prop (cleared_transaction d) k = prop (prop d "transaction") k.
Proof.
  intros Htok. destruct (truthy_prop_object _ _ Htok) as [o Ho].
  unfold cleared_transaction. rewrite Ho. split.
  - apply prop_set_same.
  - intros k Hk. rewrite prop_set_other by assumption. apply prop_spread.
Qed.

Ltac auto_cleared_tac route :=
  let x1 := fresh "x1" in let x2 := fresh "x2" in
  let Hrun := fresh "Hrun" in let Hlog := fresh "Hlog" in
  let Hd := fresh "Hd" in let Hclear := fresh "Hclear" in
  intros (x1 & x2 & Hrun & Hlog & _ & Hd & _ & _ & Hclear);
  unfold route in Hrun; unfold_monad_in Hrun;
  exec_pay Hrun;
  inversion Hrun; subst; clear Hrun;
  same_log Hlog; try discriminate Hlog;
  injection Hlog as <- <-; cbn [snd] in *;
  rewrite failed_entity in Hclear;
  match goal with Ha : entity_of ?a = _, Hf : context [entity_of ?a] |- _ =>
    rewrite Ha in Hf end; try discriminate Hclear;
  rewrite Hd in *;
  match goal with Ha : Some _ = Some _ |- _ => injection Ha as -> end;
  reflexivity.

(** C10.  On the auto-clear success path of the PAN route, of the
    PIN-gated card-token route and of the QR route, the answer is built
    from the authorization data and the request alone: the transaction is
    the authorization transaction with [state] set to "CLEARED", next to
    it come the authorization's [gpa_order] and [cleared: true]; nothing of
    the clearing call's answer is in it. *)
Theorem auto_clear_returns_authorization :
  (forall E s req r s' d,
      auto_cleared nfc_pay req E s r s' d ->
      r = Ok (cleared_response d
                [("cardLast4", VStr (Str.slice (-4) (get_string (pan (body req)))))]))
  /\ (forall E s req r s' d,
      auto_cleared pin_pay req E s r s' d ->
      r = Ok (cleared_response d
                [("cardLast4", VStr (Str.slice (-4) (get_string (cardToken (body req)))));
                 ("amount", VNum (get_amount (amount (body req))))]))
  /\ (forall E s req r s' d,
      auto_cleared qr_pay req E s r s' d ->
      r = Ok (cleared_response d []))
  /\ (forall d,
      truthy (prop (prop d "transaction") "token") = true ->
      prop (cleared_transaction d) "state" = VStr "CLEARED"
      /\ forall k, k <> "state" ->
           prop (cleared_transaction d) k = prop (prop d "transaction") k).
Proof.
  split; [|split; [|split]].
  - intros E s req r s' d. auto_cleared_tac nfc_pay.
  - intros E s req r s' d. auto_cleared_tac pin_pay.
  - intros E s req r s' d. auto_cleared_tac qr_pay.
  - exact cleared_transaction_fields.
Qed.

Lemma auto_clear_returns_authorization_witness :
  let d := VObj [("transaction", VObj [("token", VStr "txn_1"); ("state", VStr "PENDING");
                                       ("amount", num 10)]);
                 ("gpa_order", VObj [("token", VStr "gpa_1")])] in
  let E := world sandbox in
  fst (nfc_pay (post (pan_payment "5112345123451234" (inject_Z 10) None)) E after_setup)
    = Ok (cleared_response d [("cardLast4", VStr "1234")])
  /\ fst (pin_pay (post (token_payment "card_1" (Some "123456") (inject_Z 10) None))
            E after_setup)
     = Ok (cleared_response d [("cardLast4", VStr "rd_1"); ("amount", num 10)])
  /\ fst (qr_pay (post (token_payment "card_1" None (inject_Z 10) None)) E after_setup)
     = Ok (cleared_response d [])
  /\ prop (cleared_transaction d) "state" = VStr "CLEARED".
Proof.
  intros d E.
  pose (x (i : nat) (route : ApiRequest -> M response) req :=
          nth i (skipn 6 (exchanges (snd (route req E after_setup))))
            (probe, Rejected EmptyString)).
  assert (Hyp : forall (route : ApiRequest -> M response) req,
             exchanges (snd (route req E after_setup))
               = (exchanges after_setup ++ [x 0%nat route req; x 1%nat route req])%list ->
             sent_to authorization_path (x 0%nat route req) = true ->
             entity_of (snd (x 0%nat route req)) = Some d ->
             sent_to clearing_path (x 1%nat route req) = true ->
             failed (snd (x 1%nat route req)) = false ->
             auto_cleared route req E after_setup
               (fst (route req E after_setup)) (snd (route req E after_setup)) d).
  { intros route req H1 H2 H3 H4 H5. exists (x 0%nat route req), (x 1%nat route req).
    split; [apply surjective_pairing|]. split; [exact H1|]. split; [exact H2|].
    split; [exact H3|]. split; [vm_compute; reflexivity|]. split; [exact H4 | exact H5]. }
  destruct auto_clear_returns_authorization as (Hnfc & Hpin & Hqr & Htx).
  split; [|split; [|split]].
  - assert (R := fun h1 h2 h3 h4 h5 =>
                   Hnfc _ _ _ _ _ _
                     (Hyp nfc_pay
                        (post (pan_payment "5112345123451234" (inject_Z 10) None))
                        h1 h2 h3 h4 h5)).
    vm_compute in R. vm_compute. apply R; reflexivity.
  - assert (R := fun h1 h2 h3 h4 h5 =>
                   Hpin _ _ _ _ _ _
                     (Hyp pin_pay
                        (post (token_payment "card_1" (Some "123456") (inject_Z 10) None))
                        h1 h2 h3 h4 h5)).
    vm_compute in R. vm_compute. apply R; reflexivity.
  - assert (R := fun h1 h2 h3 h4 h5 =>
                   Hqr _ _ _ _ _ _
                     (Hyp qr_pay
                        (post (token_payment "card_1" None (inject_Z 10) None))
                        h1 h2 h3 h4 h5)).
    vm_compute in R. vm_compute. apply R; reflexivity.
  - apply (Htx d). vm_compute; reflexivity.
Defined.

(* ================================================================== *)
(** * PIN validation *)
(* ================================================================== *)

Lemma wrong_length p : String.length p <> 6%nat -> negb (Str.len p =? 6)%nat = true.
Proof. intros H. unfold Str.len. apply negb_true_iff, Nat.eqb_neq. exact H. Qed.




(* ================================================================== *)
(** * Amount units *)
(* ================================================================== *)

(** C3, evaluated.  [simulateTransaction] sends the text of the number it
    is given and [clearTransaction] sends a hundredth of it: with amount 10
    the authorization request says "10", with amount 1000 the clearing
    request says 10.  The dispatcher's [simulate] action hands the request's
    amount over unchanged, so the documented request with [amount: 10.00]
    sends "10", whereas the PAN route, which multiplies by 100 first, sends
    "1000" and then clears 10. *)
Theorem simulate_amount_not_converted :
  (forall E s cardToken webhookEndpoint,
      exists rq rp out,
        simulateTransaction cardToken (inject_Z 10) webhookEndpoint E s
          = (out, logged rq rp s)
        /\ body_field ["amount"] rq = VStr "10")
  /\ (forall E s transactionToken,
      exists rq rp out,
        clearTransaction transactionToken (inject_Z 1000) E s = (out, logged rq rp s)
        /\ body_field ["amount"] rq = num 10)
  /\ amounts_sent after_setup
       (snd (setup_handler (post (dispatch "simulate" "card_1" (inject_Z 10)))
               (world sandbox) after_setup))
     = [VStr "10"]
  /\ amounts_sent after_setup
       (snd (nfc_pay (post (pan_payment "5112345123451234" (inject_Z 10) None))
               (world sandbox) after_setup))
     = [VStr "1000"; num 10].
Proof.
  split; [|split; [|split]].
  - intros E s tok wh.
    destruct (simulateTransaction_run tok (inject_Z 10) wh E s)
      as (rq & rp & _ & _ & _ & Hamount & Hrun).
    exists rq, rp. eexists. split; [exact Hrun | exact Hamount].
  - intros E s tok.
    destruct (clearTransaction_run tok (inject_Z 1000) E s)
      as (rq & rp & _ & _ & _ & Hamount & Hrun).
    exists rq, rp. eexists. split; [exact Hrun | exact Hamount].
  - vm_compute; reflexivity.
  - vm_compute; reflexivity.
Qed.

(* ================================================================== *)
(** * Further properties *)
(* ================================================================== *)

Section Amounts.
Local Open Scope Q_scope.

Lemma Math_round_bounds q :
  q - (1 # 2) < inject_Z (Math_round q) /\ inject_Z (Math_round q) <= q + (1 # 2).
Proof.
  unfold Math_round. split.
  - pose proof (Qlt_floor (q + (1 # 2))) as H.
    rewrite inject_Z_plus in H. 
    apply (Qplus_lt_l _ _ (inject_Z 1)).
    eapply Qle_lt_trans; [|exact H].
    setoid_replace (q - (1 # 2) + inject_Z 1) with (q + (1 # 2)) by (unfold inject_Z; ring).
    apply Qle_refl.
  - apply Qfloor_le.
Qed.

Lemma Math_round_integer z : Math_round (inject_Z z) = z.
Proof.
  unfold Math_round.
  pose proof (Qfloor_le (inject_Z z + (1 # 2))) as Hle.
  pose proof (Qlt_floor (inject_Z z + (1 # 2))) as Hlt.
  set (f := Qfloor (inject_Z z + (1 # 2))) in *.
  unfold Qle, Qlt in Hle, Hlt. clearbody f.
  unfold Qplus, inject_Z in Hle, Hlt. cbn in Hle, Hlt. lia.
Qed.

Lemma Math_round_comp p q : p == q -> Math_round p = Math_round q.
Proof.
  intros H. unfold Math_round. apply Qfloor_comp. rewrite H. reflexivity.
Qed.

Lemma cents_of_whole a z : a * inject_Z 100 == inject_Z z -> cents_of a = z.
Proof.
  intros H. unfold cents_of. rewrite (Math_round_comp _ _ H). apply Math_round_integer.
Qed.

Lemma dollars_of_whole_cents a z :
  a * inject_Z 100 == inject_Z z -> Qred (inject_Z z / inject_Z 100) = Qred a.
Proof. intros H. apply Qred_complete. rewrite <- H. field. Qed.



End Amounts.

Lemma append_cons c a b : (String c a ++ b) = String c (a ++ b).
Proof. reflexivity. Qed.

Lemma append_assoc a b c : ((a ++ b) ++ c) = (a ++ (b ++ c)).
Proof. induction a as [|x a IH]; [reflexivity|]. rewrite !append_cons, IH. reflexivity. Qed.

Lemma append_empty_r a : (a ++ EmptyString) = a.
Proof. induction a as [|x a IH]; [reflexivity|]. rewrite append_cons, IH. reflexivity. Qed.

Lemma all_append p a b : Str.all p (a ++ b) = Str.all p a && Str.all p b.
Proof.
  induction a as [|x a IH]; [reflexivity|].
  rewrite append_cons. cbn [Str.all]. rewrite IH. apply andb_assoc.
Qed.

Lemma all_impl (p q : ascii -> bool) s :
  (forall c, p c = true -> q c = true) -> Str.all p s = true -> Str.all q s = true.
Proof.
  intros Hpq. induction s as [|c s IH]; cbn; [reflexivity|].
  intros H. apply andb_true_iff in H as [Hc Hs]. rewrite (Hpq _ Hc), (IH Hs). reflexivity.
Qed.

Lemma split_aux_free c cur a :
  free_of c a = true -> Str.split_aux c cur a = [cur ++ a].
Proof.
  revert cur. induction a as [|d a IH]; intros cur H; cbn [Str.split_aux].
  - now rewrite append_empty_r.
  - cbn in H. apply andb_true_iff in H as [Hd Ha]. apply negb_true_iff in Hd.
    rewrite Hd, (IH _ Ha), append_assoc. reflexivity.
Qed.

Lemma split_aux_sep c cur a b :
  free_of c a = true ->
  Str.split_aux c cur (a ++ String c b) = (cur ++ a) :: Str.split_aux c EmptyString b.
Proof.
  revert cur. induction a as [|d a IH]; intros cur H.
  - change (EmptyString ++ String c b) with (String c b). cbn [Str.split_aux].
    rewrite Ascii.eqb_refl, append_empty_r. reflexivity.
  - cbn in H. apply andb_true_iff in H as [Hd Ha]. apply negb_true_iff in Hd.
    rewrite append_cons. cbn [Str.split_aux]. rewrite Hd, (IH _ Ha), append_assoc.
    reflexivity.
Qed.

Lemma digits_free_of_underscore s :
  Str.all Str.is_digit s = true -> free_of "_" s = true.
Proof.
  apply all_impl. intros c Hc.
  destruct (Ascii.eqb_spec "_"%char c) as [<- | ]; [discriminate | reflexivity].
Qed.

(** [token.split('_')] gives back the three parts of a token. *)
Lemma token_split prefix now rnd :
  free_of "_" prefix = true ->
  free_of "_" (Str.substring 2 6 rnd) = true ->
  Str.split "_" (token_format prefix now rnd)
    = [prefix; Str.slice (-8) (Str.of_N now); Str.substring 2 6 rnd].
Proof.
  intros Hp Hr. unfold token_format, Str.split.
  change (prefix ++ "_" ++ ?x) with (prefix ++ String "_" x).
  rewrite split_aux_sep by exact Hp.
  change (Str.slice (-8) (Str.of_N now) ++ "_" ++ ?x)
    with (Str.slice (-8) (Str.of_N now) ++ String "_" x).
  rewrite split_aux_sep by (apply digits_free_of_underscore, slice_all, all_digits_of_N).
  rewrite split_aux_free by exact Hr. reflexivity.
Qed.

(** X3.  The e-mail address of the user [createUser] creates ends its local
    part with the random suffix of the user's token. *)
Theorem createUser_email (E : env) (s : state) :
  let rnd := Math_random36 E (S (instant s)) in
  free_of "_" (Str.substring 2 6 rnd) = true ->
  exists rq rp n,
    createUser VUndef E s = creation_result set_user rq rp n s
    /\ body_field ["token"] rq = VStr (token_format "user" (Date_now E (instant s)) rnd)
    /\ body_field ["email"] rq
       = VStr ("oneclick-" ++ Str.substring 2 6 rnd ++ "@test.marqeta").
Proof.
  intros rnd Hfree. unfold createUser. unfold_monad. cbn.
  fold rnd. rewrite (token_split "user" _ rnd eq_refl Hfree). cbn [nth_error of_option_string].
  rewrite marqetaRequest_run. cbv zeta.
  match goal with
  | |- context [fetch ?E ?n ?rq] =>
      exists rq, (fetch E n rq); unfold creation_result;
      destruct (entity_of (fetch E n rq))
  end; eexists; repeat split.
Qed.

Lemma createUser_email_witness :
  exists rq rp n,
    createUser VUndef (world sandbox) initial_state
      = creation_result set_user rq rp n initial_state
    /\ body_field ["token"] rq = VStr "user_34400123_k3f9"
    /\ body_field ["email"] rq = VStr "oneclick-k3f9@test.marqeta".
Proof.
  exact (createUser_email (world sandbox) initial_state eq_refl).
Defined.

Section PinPadFacts.
Import PinPad.
Local Open Scope nat_scope.

Lemma slice_drop_last_length s : String.length (PinPad.slice 0 (-1) s) = String.length s - 1.
Proof.
  unfold PinPad.slice, Str.len. cbn [Z.ltb Z.compare].
  rewrite Z.min_l by lia. 
  replace (Z.to_nat (Z.max (Z.max (Z.of_nat (String.length s) + -1) 0 - 0) 0))
    with (String.length s - 1) by lia.
  cbn [Z.to_nat]. apply length_substring. lia.
Qed.

Lemma slice_drop_last_all p s : Str.all p s = true -> Str.all p (PinPad.slice 0 (-1) s) = true.
Proof. intros H. unfold PinPad.slice. now apply all_substring. Qed.

Lemma press_bound pin k :
  on_numpad k = true -> String.length pin <= 6 -> String.length (press pin k) <= 6.
Proof.
  intros Hk Hpin. destruct k as [d | | ]; cbn [press].
  - unfold handlePinDigit, Str.len. destruct (String.length pin <? 6) eqn:Hlt; [|exact Hpin].
    apply Nat.ltb_lt in Hlt. cbn in Hk. apply andb_true_iff in Hk as [Hd _].
    apply Nat.eqb_eq in Hd. unfold Str.len in Hd. rewrite length_append. lia.
  - cbn. lia.
  - unfold handleBackspace. rewrite slice_drop_last_length. lia.
Qed.

Lemma press_digits pin k :
  on_numpad k = true -> Str.all Str.is_digit pin = true ->
  Str.all Str.is_digit (press pin k) = true.
Proof.
  intros Hk Hpin. destruct k as [d | | ]; cbn [press].
  - unfold handlePinDigit. destruct (Str.len pin <? 6); [|exact Hpin].
    cbn in Hk. apply andb_true_iff in Hk as [_ Hd]. rewrite all_append, Hpin, Hd. reflexivity.
  - reflexivity.
  - now apply slice_drop_last_all.
Qed.

(** X4.  Whatever is pressed on the numpad, the PIN field holds at most six
    characters, all of them digits; Backspace and Clear on an empty field
    leave it empty, and a digit pressed on a full field is ignored. *)
Theorem pin_field_invariant (keys : list key) :
  forallb on_numpad keys = true ->
  String.length (entered keys) <= 6
  /\ Str.all Str.is_digit (entered keys) = true.
Proof.
  unfold entered.
  assert (G : forall pin, String.length pin <= 6 -> Str.all Str.is_digit pin = true ->
              forallb on_numpad keys = true ->
              String.length (fold_left press keys pin) <= 6
              /\ Str.all Str.is_digit (fold_left press keys pin) = true).
  { induction keys as [|k keys IH]; intros pin Hlen Hdig Hkeys; cbn [fold_left].
    - split; assumption.
    - cbn in Hkeys. apply andb_true_iff in Hkeys as [Hk Hkeys].
      apply IH; [now apply press_bound | now apply press_digits | exact Hkeys]. }
  intros Hkeys. apply G; [cbn; lia | reflexivity | exact Hkeys].
Qed.

Lemma pin_field_invariant_witness :
  let keys := [Backspace; Digit "1"; Digit "2"; Digit "3"; Backspace; Digit "4";
               Digit "5"; Digit "6"; Digit "7"; Digit "8"; Digit "9"] in
  entered keys = "124567"
  /\ String.length (entered keys) <= 6
  /\ Str.all Str.is_digit (entered keys) = true.
Proof.
  intros keys. split; [reflexivity|].
  exact (pin_field_invariant keys eq_refl).
Defined.

End PinPadFacts.

Lemma Qred_integer z : Qred (inject_Z z) = inject_Z z.
Proof.
  unfold Qred, inject_Z. cbn [Qnum Qden].
  pose proof (Z.ggcd_gcd z 1) as Hg.
  pose proof (Z.ggcd_correct_divisors z 1) as Hd.
  destruct (Z.ggcd z 1) as [g [aa bb]]. cbn [fst snd] in *.
  rewrite Z.gcd_1_r in Hg. subst g. destruct Hd as [Ha Hb].
  rewrite Z.mul_1_l in Ha, Hb. subst aa bb. reflexivity.
Qed.

Lemma number_toString_integer E z :
  (Z.abs z < 10 ^ 21)%Z -> number_toString E (inject_Z z) = Str.of_Z z.
Proof.
  intros H. unfold number_toString.
  rewrite Qred_integer. cbn [Qden Qnum inject_Z Pos.eqb andb].
  apply Z.ltb_lt in H. rewrite H. reflexivity.
Qed.



Lemma createUser_run_full E s :
  exists rq rp n,
    rq_method rq = "POST" /\ rq_url rq = api user_path /\
    body_field ["metadata"; "balance_limit"] rq = num USER_BALANCE_LIMIT /\
    createUser VUndef E s = creation_result set_user rq rp n s.
Proof.
  unfold createUser. run_step; eexists; repeat split.
Qed.

Lemma createVelocityControl_run_full userToken name E s :
  exists rq rp n,
    rq_method rq = "POST" /\ rq_url rq = api velocityControl_path /\
    body_field ["amount_limit"] rq = num USER_BALANCE_LIMIT /\
    body_field ["currency_code"] rq = VStr "USD" /\
    body_field ["velocity_window"] rq = VStr "DAY" /\
    body_field ["active"] rq = VBool true /\
    body_field ["association"; "user_token"] rq = userToken /\
    createVelocityControl userToken name E s
      = creation_result set_velocityControl rq rp n s.
Proof.
  unfold createVelocityControl. run_step; eexists; repeat split.
Qed.

Ltac exec_full H :=
  repeat first
    [ rewrite testConnection_run in H
    | rewrite getp_run in H
    | rewrite nullish_default in H
    | match type of H with
      | context [createProgramFundingSource ?E ?s] =>
          exec_step H (createProgramFundingSource_run E s)
      | context [createCardProduct ?t ?E ?s] =>
          exec_step H (createCardProduct_run t E s)
      | context [createUser VUndef ?E ?s] =>
          exec_step H (createUser_run_full E s)
      | context [createCard ?t ?t' ?E ?s] =>
          exec_step H (createCard_run t t' E s)
      | context [createVelocityControl ?t ?nm ?E ?s] =>
          exec_step H (createVelocityControl_run_full t nm E s)
      | context [if nullish ?v then _ else _] =>
          first [ match goal with Hn : nullish v = _ |- _ => rewrite Hn in H end
                | destruct (nullish v) eqn:? ]
      | context [if negb (failed ?rp) then _ else _] => destruct (failed rp) eqn:?
      | context [negb (negb (failed ?rp))] => destruct (failed rp) eqn:?
      end
    | progress cbn in H ].

(** A successful run of the [try] block in full: the registry it leaves,
    the entities it returns (none of them [null]) and its six exchanges. *)
Lemma setup_success_run E s fs cp u c vc s1 :
  setup_steps E s = (Ok (Success fs cp u c vc), s1) ->
  resources s1 = {| fundingSource := fs; cardProduct := cp; user := u;
                    card := c; velocityControl := vc |}
  /\ (nullish fs = false /\ nullish cp = false /\ nullish u = false
      /\ nullish c = false /\ nullish vc = false)
  /\ exists a0 q1 a1 q2 a2 q3 a3 q4 a4 q5 a5,
       exchanges s1
         = (exchanges s ++ [(probe, a0); (q1, a1); (q2, a2); (q3, a3); (q4, a4); (q5, a5)])%list
       /\ rq_url q3 = api user_path
       /\ body_field ["metadata"; "balance_limit"] q3 = num USER_BALANCE_LIMIT
       /\ rq_url q5 = api velocityControl_path
       /\ body_field ["amount_limit"] q5 = num USER_BALANCE_LIMIT
       /\ body_field ["currency_code"] q5 = VStr "USD"
       /\ body_field ["velocity_window"] q5 = VStr "DAY"
       /\ body_field ["active"] q5 = VBool true.
Proof.
  intros H. unfold setup_steps in H. unfold_monad_in H.
  exec_full H.
  all: try discriminate H.
  all: injection H as <- <- <- <- <- <-; cbn [exchanges resources logged].
  all: rewrite <- ?app_assoc; cbn [app].
  all: split; [reflexivity|]; split; [repeat split; first [assumption | reflexivity]|].
  all: do 11 eexists; split; [reflexivity|]; repeat split; assumption.
Qed.

Lemma setupJITFunding_success E s fs cp u c vc s' :
  setupJITFunding E s = (Ok (Success fs cp u c vc), s') ->
  setup_steps E s = (Ok (Success fs cp u c vc), s').
Proof.
  unfold setupJITFunding, try_catch.
  destruct (setup_steps E s) as [[a | e] s1]; intros H; [exact H|]. exfalso.
  unfold setup_failure, bind, ret in H. rewrite getp_run in H.
  destruct (nullish e) eqn:Hn; cbn in H; [discriminate|].
  destruct (truthy (prop e "error")); cbn in H; [discriminate|].
  rewrite getp_run, Hn in H. discriminate.
Qed.

(** X6.  A successful setup leaves in the registry exactly the five entities it
    returns, whatever the registry held before, and makes six calls. *)
Theorem setup_success_fills_registry (E : env) (s : state) fs cp u c vc s' :
  setupJITFunding E s = (Ok (Success fs cp u c vc), s') ->
  resources s' = {| fundingSource := fs; cardProduct := cp; user := u;
                    card := c; velocityControl := vc |}
  /\ exists tr, exchanges s' = (exchanges s ++ tr)%list /\ List.length tr = 6%nat.
Proof.
  intros H. apply setupJITFunding_success, setup_success_run in H.
  destruct H as (Hreg & _ & a0 & q1 & a1 & q2 & a2 & q3 & a3 & q4 & a4 & q5 & a5 & Hlog & _).
  split; [exact Hreg|]. eexists. split; [exact Hlog | reflexivity].
Qed.

Lemma setup_success_fills_registry_witness :
  resources after_setup
    = {| fundingSource := VObj [("token", VStr "fund_1"); ("name", VStr "JIT")];
         cardProduct := VObj [("token", VStr "prod_1"); ("name", VStr "OneClick")];
         user := VObj [("token", VStr "user_1"); ("first_name", VStr "OneClick");
                       ("last_name", VStr "User")];
         card := VObj [("token", VStr "card_1"); ("pan", VStr "5112345123451234");
                       ("cvv_number", VStr "123"); ("expiration", VStr "1229");
                       ("state", VStr "ACTIVE")];
         velocityControl := VObj [("token", VStr "vc_1"); ("velocity_window", VStr "DAY")] |}
  /\ exists tr, exchanges after_setup = (exchanges initial_state ++ tr)%list
                /\ List.length tr = 6%nat.
Proof.
  apply (setup_success_fills_registry (world sandbox) initial_state).
  vm_compute; reflexivity.
Defined.

(** X7.  In a successful setup the user is created with the balance limit of
    10000 cents in its metadata and the velocity control with the same
    amount as its limit, in USD, per DAY, active. *)
Theorem setup_limits_agree (E : env) (s : state) fs cp u c vc s' :
  setupJITFunding E s = (Ok (Success fs cp u c vc), s') ->
  exists tr qu au qv av,
    exchanges s' = (exchanges s ++ tr)%list
    /\ nth_error tr 3 = Some (qu, au) /\ rq_url qu = api user_path
    /\ nth_error tr 5 = Some (qv, av) /\ rq_url qv = api velocityControl_path
    /\ body_field ["metadata"; "balance_limit"] qu = num 10000
    /\ body_field ["amount_limit"] qv = num 10000
    /\ body_field ["currency_code"] qv = VStr "USD"
    /\ body_field ["velocity_window"] qv = VStr "DAY"
    /\ body_field ["active"] qv = VBool true.
Proof.
  intros H. apply setupJITFunding_success, setup_success_run in H.
  destruct H as (_ & _ & a0 & q1 & a1 & q2 & a2 & q3 & a3 & q4 & a4 & q5 & a5
                 & Hlog & Hu & Hlimit & Hv & Hamount & Hcur & Hwin & Hact).
  eexists _, q3, a3, q5, a5. split; [exact Hlog|].
  repeat split; assumption.
Qed.

Lemma setup_limits_agree_witness :
  exists tr qu au qv av,
    exchanges after_setup = (exchanges initial_state ++ tr)%list
    /\ nth_error tr 3 = Some (qu, au) /\ rq_url qu = api user_path
    /\ nth_error tr 5 = Some (qv, av) /\ rq_url qv = api velocityControl_path
    /\ body_field ["metadata"; "balance_limit"] qu = num 10000
    /\ body_field ["amount_limit"] qv = num 10000
    /\ body_field ["currency_code"] qv = VStr "USD"
    /\ body_field ["velocity_window"] qv = VStr "DAY"
    /\ body_field ["active"] qv = VBool true.
Proof.
  apply (setup_limits_agree (world sandbox) initial_state
           (VObj [("token", VStr "fund_1"); ("name", VStr "JIT")])
           (VObj [("token", VStr "prod_1"); ("name", VStr "OneClick")])
           (VObj [("token", VStr "user_1"); ("first_name", VStr "OneClick");
                  ("last_name", VStr "User")])
           (VObj [("token", VStr "card_1"); ("pan", VStr "5112345123451234");
                  ("cvv_number", VStr "123"); ("expiration", VStr "1229");
                  ("state", VStr "ACTIVE")])
           (VObj [("token", VStr "vc_1"); ("velocity_window", VStr "DAY")])).
  vm_compute; reflexivity.
Defined.

Lemma answered_empty_entity x :
  answered_empty x = true -> entity_of (snd x) = Some (VObj []).
Proof.
  unfold answered_empty. destruct (snd x) as [m | st stt txt [v | m]]; try discriminate.
  cbn. intros ->. reflexivity.
Qed.

Lemma answered_empty_went_on x : answered_empty x = true -> went_on x = true.
Proof.
  intros H. apply call_ok_went_on. unfold call_ok, returned_entity.
  rewrite failed_entity, (answered_empty_entity _ H). destruct (is_post x); reflexivity.
Qed.

(** X8.  When the platform answers every call of a setup run with a 2xx and an
    empty or unparseable body, setup still succeeds: each entity is the
    empty object, and the card product and card requests carry [undefined]
    where a token was to be handed forward. *)
Theorem setup_with_empty_bodies (E : env) (s : state) r s' tr :
  setupJITFunding E s = (r, s') ->
  exchanges s' = (exchanges s ++ tr)%list ->
  forallb answered_empty tr = true ->
  r = Ok (Success (VObj []) (VObj []) (VObj []) (VObj []) (VObj []))
  /\ exists qcp acp qc ac,
       nth_error tr 2 = Some (qcp, acp) /\ nth_error tr 4 = Some (qc, ac)
       /\ body_field ["config"; "jit_funding"; "program_funding_source";
                      "funding_source_token"] qcp = VUndef
       /\ body_field ["user_token"] qc = VUndef
       /\ body_field ["card_product_token"] qc = VUndef.
Proof.
  intros Hrun Hlog Hempty.
  destruct (setupJITFunding_run _ _ _ _ Hrun) as (tr' & Hlog' & _ & Hend).
  rewrite Hlog' in Hlog. apply app_inv_head in Hlog. subst tr'.
  destruct Hend as [(fs & cp & u & c & vc & Hr & _ & Hchain)
                   | (reason & pre & x & _ & Htr & _ & Hx)].
  - destruct Hchain as (q0 & a0 & q1 & a1 & q2 & a2 & q3 & a3 & q4 & a4 & q5 & a5
                        & -> & _ & _ & Hfs & _ & Hcp & _ & Hu & _ & Hc & _ & Hvc
                        & Hb1 & Hb2 & Hb3 & _).
    cbn [forallb] in Hempty.
    repeat (apply andb_true_iff in Hempty as [?H Hempty]).
    repeat match goal with
           | Hx : answered_empty (_, _) = true |- _ =>
               apply answered_empty_entity in Hx; cbn [snd] in Hx
           end.
    unfold funding_source_from in Hfs.
    repeat match goal with
           | Ha : entity_of ?a = Some (VObj []), Hb : context [entity_of ?a] |- _ =>
               rewrite Ha in Hb
           end.
    subst fs. injection Hcp as <-. injection Hu as <-. injection Hc as <-.
    injection Hvc as <-.
    split; [exact Hr|]. exists q2, a2, q4, a4. repeat split; assumption.
  - subst tr. rewrite forallb_app in Hempty. cbn in Hempty.
    apply andb_true_iff in Hempty as [_ Hempty]. rewrite andb_true_r in Hempty.
    apply answered_empty_went_on in Hempty. congruence.
Qed.

Lemma setup_with_empty_bodies_witness :
  let run := setupJITFunding (world silent_platform) initial_state in
  fst run = Ok (Success (VObj []) (VObj []) (VObj []) (VObj []) (VObj []))
  /\ exists qcp acp qc ac,
       nth_error (exchanges (snd run)) 2 = Some (qcp, acp)
       /\ nth_error (exchanges (snd run)) 4 = Some (qc, ac)
       /\ body_field ["config"; "jit_funding"; "program_funding_source";
                      "funding_source_token"] qcp = VUndef
       /\ body_field ["user_token"] qc = VUndef
       /\ body_field ["card_product_token"] qc = VUndef.
Proof.
  intros run.
  apply (setup_with_empty_bodies (world silent_platform) initial_state
           (fst run) (snd run) (exchanges (snd run))).
  - apply surjective_pairing.
  - vm_compute; reflexivity.
  - vm_compute; reflexivity.
Defined.



Lemma getUserBalance_run userToken E s :
  getUserBalance userToken E s
    = (match entity_of (fetch E (instant s) (balance_request userToken)) with
       | Some d => Ok d
       | None => Thrown (thrown_by (fetch E (instant s) (balance_request userToken)))
       end,
       logged (balance_request userToken)
         (fetch E (instant s) (balance_request userToken)) s).
Proof.
  unfold getUserBalance. unfold_monad. rewrite marqetaRequest_run. cbv zeta.
  cbn [truthy].
  change {| rq_method := "GET"; rq_url := api ("/users/" ++ userToken); rq_body := None |}
    with (balance_request userToken).
  destruct (entity_of (fetch E (instant s) (balance_request userToken))); reflexivity.
Qed.

Lemma relayed_status_thrown rp :
  or_else (prop (thrown_by rp) "status") (num 500) = num (relayed_status rp).
Proof.
  destruct rp as [m | st stt txt b]; [reflexivity|].
  unfold thrown_by, relayed_status, prop, or_else. cbn [lookup String.eqb Ascii.eqb Bool.eqb].
  cbn [truthy num]. unfold Qeq_bool. cbn [Qnum Qden inject_Z].
  rewrite Z.mul_1_r. cbn [Z.mul].
  destruct st; reflexivity.
Qed.

(** The dispatcher's [catch] block answers anything thrown that is not
    [null] or [undefined], with [error.status || 500] and [success: false],
    and leaves the state alone. *)
Lemma setup_error_response_run e E s :
  nullish e = false ->
  exists resp,
    setup_error_response e E s = (Ok resp, s)
    /\ code resp = or_else (prop e "status") (num 500)
    /\ prop (payload resp) "success" = VBool false.
Proof.
  intros Hn. unfold setup_error_response, bind, ret, ask.
  rewrite getp_run, Hn.
  destruct (truthy (prop e "error")) eqn:Ht.
  - pose proof (truthy_not_nullish _ Ht) as Hne.
    destruct (prop e "error") eqn:He; try discriminate Ht;
      repeat first [ rewrite getp_run | rewrite Hne | rewrite Hn
                   | match goal with |- context [if truthy ?v then _ else _] =>
                       destruct (truthy v) end ];
      eexists; repeat split.
  - repeat first [ rewrite getp_run | rewrite Hn
                 | match goal with |- context [if truthy ?v then _ else _] =>
                     destruct (truthy v) end ];
      eexists; repeat split.
Qed.

Lemma payment_error_response_run e E s :
  exists resp,
    payment_error_response e E s = (Ok resp, s)
    /\ code resp = or_else (prop e "status") (num 500)
    /\ prop (payload resp) "success" = VBool false.
Proof.
  unfold payment_error_response, bind, ret. rewrite getp_opt_run.
  destruct (truthy (prop e "error")) eqn:Ht.
  - rewrite getp_run, (truthy_not_nullish _ Ht), getp_opt_run. eexists; repeat split.
  - rewrite getp_opt_run. destruct (truthy (prop e "message")); rewrite getp_opt_run;
      eexists; repeat split.
Qed.

Lemma setup_action_state req E s :
  method req = "POST" ->
  action (body req) = Some "setup" ->
  exists resp, setup_handler req E s = (Ok resp, snd (setupJITFunding E s)).
Proof.
  intros Hm Ha. unfold setup_handler. rewrite Hm, Ha.
  cbn [String.eqb Ascii.eqb Bool.eqb negb is_action].
  unfold try_catch, bind.
  destruct (setupJITFunding E s) as [[[fs cp u c vc | reason] | e] s1] eqn:Hrun;
    cbn [fst snd].
  - destruct (setup_success_run _ _ _ _ _ _ _ _ (setupJITFunding_success _ _ _ _ _ _ _ _ Hrun))
      as (_ & (Hfs & Hcp & Hu & Hc & Hvc) & _).
    unfold ask, respond, ret.
    repeat (rewrite getp_run; rewrite ?Hfs, ?Hcp, ?Hu, ?Hc, ?Hvc; cbv beta iota).
    eexists. reflexivity.
  - eexists. reflexivity.
  - exfalso. destruct (setupJITFunding_run _ _ _ _ Hrun) as (tr & _ & _ & Hend).
    destruct Hend as [(? & ? & ? & ? & ? & Hr & _) | (? & ? & ? & Hr & _)]; discriminate.
Qed.

(** A setup run makes at least one call. *)
Lemma setupJITFunding_calls E s :
  exists x tr, exchanges (snd (setupJITFunding E s)) = (exchanges s ++ x :: tr)%list.
Proof.
  destruct (setupJITFunding_run E s _ _ (surjective_pairing _)) as (tr & Hlog & _ & Hend).
  rewrite Hlog.
  destruct Hend as [(fs & cp & u & c & vc & _ & _ & Hchain) | (reason & pre & x & _ & Htr & _)].
  - destruct Hchain as (q0 & a0 & q1 & a1 & q2 & a2 & q3 & a3 & q4 & a4 & q5 & a5 & -> & _).
    eauto.
  - subst tr. destruct pre as [|y pre]; cbn [app]; eauto.
Qed.

(** Symbolic execution of the dispatcher in hypothesis [H]. *)
Ltac exec_api H :=
  repeat first
    [ rewrite getp_run in H
    | rewrite getUserBalance_run in H
    | match type of H with
      | context [simulateTransaction ?t ?a ?w ?E ?s] =>
          exec_call H (simulateTransaction_run t a w E s)
      | context [clearTransaction ?t ?a ?E ?s] =>
          exec_call H (clearTransaction_run t a E s)
      | context [setup_error_response (thrown_by ?rp) ?E ?s] =>
          let resp := fresh "resp" in let Heq := fresh "Hresp" in
          let Hc := fresh "Hcode" in let Hs := fresh "Hsuccess" in
          destruct (setup_error_response_run (thrown_by rp) E s (nullish_thrown_by rp))
            as (resp & Heq & Hc & Hs);
          rewrite Heq in H; clear Heq
      | context [match entity_of ?rp with _ => _ end] => destruct (entity_of rp) eqn:?
      | context [if ?c then _ else _] =>
          first [ match goal with Hc : c = _ |- _ => rewrite Hc in H end
                | destruct c eqn:? ]
      end
    | progress cbn in H ].



(** X11.  The [balance] action never fails on the platform's account: it sends
    one GET for the user and answers 200 with [success: true] whatever
    comes back, the user's data when the call succeeded and
    [{ gpa: null }] with a warning when it did not; the registry is not
    touched. *)
Theorem balance_lookup_not_critical (E : env) (s : state) req t :
  method req = "POST" ->
  action (body req) = Some "balance" ->
  userToken (body req) = Some t ->
  t <> EmptyString ->
  let rp := fetch E (instant s) (balance_request t) in
  setup_handler req E s
    = (Ok {| code := num 200;
             payload := VObj (match entity_of rp with
                              | Some d => [("success", VBool true); ("data", d)]
                              | None => balance_unavailable
                              end) |},
       logged (balance_request t) rp s).
Proof.
  intros Hm Ha Ht Hne rp. unfold setup_handler. rewrite Hm, Ha, Ht.
  cbn [String.eqb Ascii.eqb Bool.eqb negb is_action get_string].
  assert (Hmiss : missing (Some t) = false).
  { unfold missing. now apply String.eqb_neq. }
  rewrite Hmiss. unfold try_catch, bind, respond, ret.
  rewrite getUserBalance_run. fold rp. destruct (entity_of rp); reflexivity.
Qed.

Lemma balance_lookup_not_critical_witness :
  setup_handler
    (post {| action := Some "balance"; amount := None; webhookEndpoint := None;
             cardToken := None; userToken := Some "user_1"; transactionToken := None;
             pan := None; pin := None; autoClear := None |})
    (world sandbox) after_setup
  = (Ok {| code := num 200; payload := VObj balance_unavailable |},
     logged (balance_request "user_1")
       (Answered 404 "Not Found" EmptyString (Unparseable "Unexpected end of JSON input"))
       after_setup).
Proof.
  apply (balance_lookup_not_critical (world sandbox) after_setup _ "user_1");
    [reflexivity | reflexivity | reflexivity | discriminate].
Defined.



(** Symbolic execution of a payment route in hypothesis [H], keeping what
    the [catch] block answers. *)
Ltac exec_route H :=
  repeat first
    [ rewrite getp_run in H
    | rewrite getp_opt_run in H
    | match type of H with
      | context [simulateTransaction ?t ?a ?w ?E ?s] =>
          exec_call H (simulateTransaction_run t a w E s)
      | context [clearTransaction ?t ?a ?E ?s] =>
          exec_call H (clearTransaction_run t a E s)
      | context [payment_error_response ?e ?E ?s] =>
          let resp := fresh "resp" in let Heq := fresh "Hresp" in
          let Hc := fresh "Hcode" in let Hs := fresh "Hsuccess" in
          destruct (payment_error_response_run e E s) as (resp & Heq & Hc & Hs);
          rewrite Heq in H; clear Heq
      | context [if ?c then _ else _] =>
          first [ match goal with Hc : c = _ |- _ => rewrite Hc in H end
                | destruct c eqn:? ]
      end
    | progress cbn in H ].

Ltac absurd_branch :=
  try match goal with
      | Hb : truthy (VBool false) = true |- _ => discriminate Hb
      end.

Lemma sent_to_url path rq rp : rq_url rq = api path -> sent_to path (rq, rp) = true.
Proof. intros H. unfold sent_to. cbn [fst]. rewrite H. apply String.eqb_refl. Qed.

(** X13.  With [autoClear: false] the PAN route and the QR route never call the
    clearing simulation: the request makes at most one call, the
    authorization, and when that call succeeds the answer is 200 with
    [success: true]. *)
Theorem autoClear_off_never_clears (E : env) (s : state) route req r s' :
  route = nfc_pay \/ route = qr_pay ->
  autoClear (body req) = Some false ->
  route req E s = (r, s') ->
  exists tr,
    exchanges s' = (exchanges s ++ tr)%list
    /\ (List.length tr <= 1)%nat
    /\ forallb (sent_to authorization_path) tr = true
    /\ (forall x, tr = [x] -> failed (snd x) = false ->
        exists resp, r = Ok resp /\ code resp = num 200
                     /\ prop (payload resp) "success" = VBool true).
Proof.
  intros [-> | ->] Hauto Hrun.
  - unfold nfc_pay in Hrun. unfold_monad_in Hrun. rewrite Hauto in Hrun.
    exec_route Hrun.
    all: absurd_branch.
    all: injection Hrun as <- <-; cbn [exchanges resources logged].
    all: first [ exists []; rewrite app_nil_r; split; [reflexivity|];
                 split; [cbn; lia|]; split; [reflexivity|]; intros x Hx; discriminate Hx
               | eexists [_]; split; [reflexivity|]; split; [cbn; lia|];
                 split; [cbn [forallb]; rewrite sent_to_url by assumption; reflexivity|];
                 intros x Hx Hok; injection Hx as <-; cbn [snd] in Hok;
                 rewrite failed_entity in Hok ].
    all: match goal with
         | Ha : entity_of ?a = _, Hf : context [entity_of ?a] |- _ => rewrite Ha in Hf
         end; try discriminate.
    all: eexists; split; [reflexivity|]; repeat split.
  - unfold qr_pay in Hrun. unfold_monad_in Hrun. rewrite Hauto in Hrun.
    exec_route Hrun.
    all: absurd_branch.
    all: injection Hrun as <- <-; cbn [exchanges resources logged].
    all: first [ exists []; rewrite app_nil_r; split; [reflexivity|];
                 split; [cbn; lia|]; split; [reflexivity|]; intros x Hx; discriminate Hx
               | eexists [_]; split; [reflexivity|]; split; [cbn; lia|];
                 split; [cbn [forallb]; rewrite sent_to_url by assumption; reflexivity|];
                 intros x Hx Hok; injection Hx as <-; cbn [snd] in Hok;
                 rewrite failed_entity in Hok ].
    all: match goal with
         | Ha : entity_of ?a = _, Hf : context [entity_of ?a] |- _ => rewrite Ha in Hf
         end; try discriminate.
    all: eexists; split; [reflexivity|]; repeat split.
Qed.

Lemma autoClear_off_never_clears_witness :
  let run := qr_pay (post (token_payment "card_1" None (inject_Z 10) (Some false)))
               (world sandbox) after_setup in
  exists tr,
    exchanges (snd run) = (exchanges after_setup ++ tr)%list
    /\ (List.length tr <= 1)%nat
    /\ forallb (sent_to authorization_path) tr = true
    /\ (forall x, tr = [x] -> failed (snd x) = false ->
        exists resp, fst run = Ok resp /\ code resp = num 200
                     /\ prop (payload resp) "success" = VBool true).
Proof.
  intros run.
  exact (autoClear_off_never_clears (world sandbox) after_setup qr_pay
           (post (token_payment "card_1" None (inject_Z 10) (Some false))) _ _
           (or_intror eq_refl) eq_refl (surjective_pairing _)).
Defined.

(** X14.  When the authorization call fails, the PAN, QR and PIN card-token
    routes stop there: no clearing is attempted, and the answer carries
    [success: false] and the status the platform answered with, or 500 when
    there was no answer. *)
Theorem authorization_failure_relayed (E : env) (s : state) route req r s' x tr :
  route = nfc_pay \/ route = qr_pay \/ route = pin_pay ->
  route req E s = (r, s') ->
  exchanges s' = (exchanges s ++ x :: tr)%list ->
  failed (snd x) = true ->
  tr = []
  /\ sent_to authorization_path x = true
  /\ exists resp, r = Ok resp
                  /\ code resp = num (relayed_status (snd x))
                  /\ prop (payload resp) "success" = VBool false.
Proof.
  intros Hroute Hrun Hlog Hfail.
  destruct Hroute as [-> | [-> | ->]];
    [unfold nfc_pay in Hrun | unfold qr_pay in Hrun | unfold pin_pay in Hrun];
    unfold_monad_in Hrun; exec_route Hrun.
  all: absurd_branch.
  all: injection Hrun as <- <-; same_log Hlog; try discriminate Hlog.
  all: try (injection Hlog as <- <-); try (injection Hlog as <- <- <-).
  all: cbn [snd] in *; rewrite failed_entity in Hfail.
  all: match goal with
       | Ha : entity_of ?a = _, Hf : context [entity_of ?a] |- _ => rewrite Ha in Hf
       end; try discriminate Hfail.
  all: split; [reflexivity|]; split; [now apply sent_to_url|].
  all: eexists; split; [reflexivity|]; split; [|assumption].
  all: rewrite <- relayed_status_thrown; assumption.
Qed.

Lemma authorization_failure_relayed_witness :
  let E := world (sandbox_failing (api authorization_path) 422) in
  let run := pin_pay (post (token_payment "card_1" (Some "123456") (inject_Z 10) None))
               E after_setup in
  exists x resp,
    exchanges (snd run) = (exchanges after_setup ++ [x])%list
    /\ sent_to authorization_path x = true
    /\ fst run = Ok resp
    /\ code resp = num 422
    /\ prop (payload resp) "success" = VBool false.
Proof.
  intros E run.
  pose (x := nth 6 (exchanges (snd run)) (probe, Rejected EmptyString)).
  destruct (authorization_failure_relayed E after_setup pin_pay
              (post (token_payment "card_1" (Some "123456") (inject_Z 10) None))
              (fst run) (snd run) x [])
    as (_ & Hx & resp & Hr & Hc & Hs).
  - right; right; reflexivity.
  - apply surjective_pairing.
  - vm_compute; reflexivity.
  - vm_compute; reflexivity.
  - exists x, resp. split; [vm_compute; reflexivity|]. split; [exact Hx|].
    split; [exact Hr|]. split; [exact Hc | exact Hs].
Defined.



Ltac refused := eexists _, _; split; [reflexivity | cbn; auto].



(** The common tail of the direct routes: one call, answered 200 when the
    platform gave a 2xx with a JSON body and 500 in every other case. *)
Lemma direct_payment_run rq amount pan E s :
  exists resp,
    direct_payment rq amount pan E s = (Ok resp, logged rq (fetch E (instant s) rq) s)
    /\ code resp = num (if answered_json (fetch E (instant s) rq) then 200 else 500)
    /\ (answered_json (fetch E (instant s) rq) = true ->
        prop (payload resp) "success" = VBool true
        /\ at_path ["data"; "cardLast4"] (payload resp) = VStr (Str.slice (-4) pan))
    /\ (answered_json (fetch E (instant s) rq) = false ->
        exists m, payload resp = VObj [("error", m)]).
Proof.
  unfold direct_payment, try_catch, bind, http, throw, respond, ret.
  fold (logged rq (fetch E (instant s) rq) s).
  destruct (fetch E (instant s) rq) as [m | st stt txt [t | m]]; cbn [answered_json].
  - rewrite getp_run. cbn. eexists. repeat split; try discriminate. intros _. cbn [payload]. eauto.
  - destruct (status_ok st); cbn [negb].
    + eexists. repeat split; try discriminate.
    + rewrite getp_run. cbn. eexists. repeat split; try discriminate. intros _. cbn [payload]. eauto.
  - destruct (status_ok st); cbn [negb].
    + rewrite getp_run. cbn. eexists. repeat split; try discriminate. intros _. cbn [payload]. eauto.
    + rewrite getp_run. cbn. eexists. repeat split; try discriminate. intros _. cbn [payload]. eauto.
Qed.

Arguments direct_payment : simpl never.

Lemma nonzero_amount a : ~ (a == 0)%Q -> no_amount (Some a) = false.
Proof.
  intros H. unfold no_amount. destruct (Qeq_bool a 0) eqn:He; [|reflexivity].
  apply Qeq_bool_iff in He. contradiction.
Qed.

Lemma transactions_url_eq E :
  to_string E (of_option_string (MARQETA_API_URL E)) ++ "/v3/transactions"
  = transactions_url E.
Proof. unfold transactions_url. destruct (MARQETA_API_URL E); reflexivity. Qed.



Lemma digit_not_space c : Str.is_digit c = true -> Str.is_space c = false.
Proof.
  unfold Str.is_digit, Str.is_space. intros H.
  apply andb_true_iff in H as [H1 H2]. apply N.leb_le in H1, H2.
  apply orb_false_iff. split.
  - apply andb_false_iff. right. apply N.leb_gt. lia.
  - apply N.eqb_neq. lia.
Qed.

Lemma strip_spaces_digits q : Str.all Str.is_digit q = true -> Str.strip_spaces q = q.
Proof.
  unfold Str.strip_spaces. induction q as [|c q IH]; cbn [Str.all Str.filter]; [reflexivity|].
  intros H. apply andb_true_iff in H as [Hc Hq].
  rewrite (digit_not_space _ Hc), (IH Hq). reflexivity.
Qed.

Lemma object_of_prop v k x : prop v k = VStr x -> truthy v = true /\ nullish v = false.
Proof.
  intros H. destruct (prop_of_object v k) as [o ->]; [rewrite H; discriminate|].
  split; reflexivity.
Qed.





Lemma setup_handler_answers req E s :
  exists resp s', setup_handler req E s = (Ok resp, s').
Proof.
  destruct (String.eqb (method req) "POST") eqn:Hm.
  2:{ unfold setup_handler. rewrite Hm. cbn. eexists _, _; reflexivity. }
  apply String.eqb_eq in Hm.
  destruct (is_action (action (body req)) "setup") eqn:Hsetup.
  { destruct (action (body req)) as [a|] eqn:Ha; [|discriminate].
    cbn in Hsetup. apply String.eqb_eq in Hsetup. subst a.
    destruct (setup_action_state req E s Hm Ha) as (resp & H). eauto. }
  destruct (setup_handler req E s) as [[resp | e] s'] eqn:H; [eauto|]. exfalso.
  unfold setup_handler in H. rewrite Hm in H.
  cbn [String.eqb Ascii.eqb Bool.eqb negb] in H. unfold_monad_in H.
  rewrite Hsetup in H. exec_api H; discriminate H.
Qed.



Lemma negative_amount a : (a < 0)%Q -> no_amount (Some a) = false /\ invalid_amount (Some a) = true.
Proof.
  intros H. split.
  - apply nonzero_amount. intros He. rewrite He in H. exact (Qlt_irrefl _ H).
  - unfold invalid_amount. apply orb_true_iff. right.
    apply Qle_bool_iff. now apply Qlt_le_weak.
Qed.



Lemma hd_split_aux c s : forall cur,
  exists tail, hd EmptyString (Str.split_aux c cur s) = cur ++ tail.
Proof.
  induction s as [|d s IH]; intros cur; cbn [Str.split_aux].
  - exists EmptyString. cbn [hd]. now rewrite append_empty_r.
  - destruct (Ascii.eqb c d).
    + exists EmptyString. cbn [hd]. now rewrite append_empty_r.
    + destruct (IH (cur ++ String d EmptyString)) as [tail Ht].
      exists (String d tail). rewrite Ht, append_assoc. reflexivity.
Qed.

Lemma substring_prefix a b : String.substring 0 (String.length a) (a ++ b) = a.
Proof.
  induction a as [|x a IH]; cbn [String.length].
  - destruct b; reflexivity.
  - rewrite append_cons. cbn [String.substring]. now rewrite IH.
Qed.

Lemma digit_not_colon c : Str.is_digit c = true -> Ascii.eqb ":" c = false.
Proof.
  intros H. destruct (Ascii.eqb_spec ":"%char c) as [<- | ]; [discriminate | reflexivity].
Qed.

Lemma digit_not_blank c : Str.is_digit c = true -> Ascii.eqb " " c = false.
Proof.
  intros H. destruct (Ascii.eqb_spec " "%char c) as [<- | ]; [discriminate | reflexivity].
Qed.

Lemma remove_first_cons c d s :
  Str.remove_first c (String d s)
  = if Ascii.eqb c d then s else String d (Str.remove_first c s).
Proof. reflexivity. Qed.

(** X22.  Reading the wall clock for the entity names: when the time string
    starts with hours and minutes as [HH:MM], [clock_hhmm] gives [HH:MM] and
    [clock_hhmm_compact] gives [HHMM], whatever follows (seconds, zone
    name), and each reading advances the instant by one. *)
Theorem clock_reading (E : env) (s : state) h1 h2 m1 m2 rest :
  toTimeString E (instant s)
    = String h1 (String h2 (String ":" (String m1 (String m2 rest)))) ->
  Str.all Str.is_digit (String h1 (String h2 (String m1 (String m2 EmptyString)))) = true ->
  let s' := {| resources := resources s; exchanges := exchanges s;
               instant := S (instant s) |} in
  clock_hhmm E s
    = (Ok (String h1 (String h2 (String ":" (String m1 (String m2 EmptyString))))), s')
  /\ clock_hhmm_compact E s
     = (Ok (String h1 (String h2 (String m1 (String m2 EmptyString)))), s').
Proof.
  intros Ht Hd s'. cbn [Str.all] in Hd.
  apply andb_true_iff in Hd as [H1 Hd]. apply andb_true_iff in Hd as [H2 Hd].
  apply andb_true_iff in Hd as [H3 Hd]. apply andb_true_iff in Hd as [H4 _].
  assert (Hclock : clock_hhmm E s
    = (Ok (String h1 (String h2 (String ":" (String m1 (String m2 EmptyString))))), s')).
  { unfold clock_hhmm, read, bind, ask, tick, ret. rewrite Ht.
    unfold Str.split. cbn [Str.split_aux].
    rewrite (digit_not_blank _ H1), (digit_not_blank _ H2), (digit_not_blank _ H3),
      (digit_not_blank _ H4).
    change (Ascii.eqb " " ":") with false. cbv iota.
    match goal with
    | |- context [Str.split_aux ?c ?cur rest] =>
        destruct (hd_split_aux c rest cur) as [tail Htail]; rewrite Htail
    end.
    unfold Str.substring. cbn [Nat.min Nat.max Nat.sub].
    match goal with
    | |- context [String.substring 0 5 (?cur ++ tail)] =>
        change 5%nat with (String.length cur); rewrite substring_prefix
    end.
    reflexivity. }
  split; [exact Hclock|].
  unfold clock_hhmm_compact, bind, ret. rewrite Hclock.
  rewrite !remove_first_cons, (digit_not_colon _ H1), (digit_not_colon _ H2).
  reflexivity.
Qed.

Lemma clock_reading_witness :
  clock_hhmm (world sandbox) initial_state
    = (Ok "14:05", {| resources := empty_registry; exchanges := []; instant := 1 |})
  /\ clock_hhmm_compact (world sandbox) initial_state
     = (Ok "1405", {| resources := empty_registry; exchanges := []; instant := 1 |}).
Proof.
  apply (clock_reading (world sandbox) initial_state "1" "4" "0" "5"
           ":09 GMT+0000 (Coordinated Universal Time)"); reflexivity.
Defined.
